(** * ERP.AERO backend: a shallow embedding of [src/server.js]

    The Express handlers of [src/server.js] are embedded as state-passing
    programs over an explicit server state (the two relational tables, the
    in-memory refresh-token array, a log of filesystem operations) and the
    response object under construction.  JavaScript exceptions are an error
    monad; [try]/[catch] is [try_catch].

    Values the program receives from outside (JSON bodies, query strings,
    column values) are JavaScript values; rows and objects are finite maps
    from property names to values, so that reading a property the object
    does not have yields [undefined], as in the source.

    The store is the external collaborator behind [pool]: a table is the
    list of its rows in the store's order, and a store that is down fails
    every statement.  [src/config/database.js] creates the pool with the
    [mysql] package, whose [query] hands the rows to a callback.  Signin and
    upload pass one.  The other file handlers await [pool.query(...)]
    without one: the call returns a Query object that is not a promise, so
    the awaited value is that object, its property [0] is undefined, and a
    failure of the store is not thrown into the handler.  [pool_api] keeps
    this apart from a pool whose [query] has been promisified and resolves
    to the rows.

    Ids, sizes and counts are integers, modelled by [Z].  The numbers the
    list handler computes from the query string are doubles: an integer
    rounded to the nearest double, an infinity, or NaN ([num]).  Strings are
    sequences of code units below 256. *)

From Stdlib Require Import ZArith String Ascii List Bool Lia.
From stdpp Require Import base option list gmap strings pretty.

Local Open Scope string_scope.
Local Open Scope Z_scope.

(** ** JavaScript values and objects *)

Inductive value : Type :=
  | VUndefined
  | VNull
  | VBool (b : bool)
  | VNum (n : Z)
  | VStr (s : string).

#[global] Instance value_eq_dec : EqDecision value.
Proof. solve_decision. Defined.

(** [v == null] *)
Definition is_nullish (v : value) : bool :=
  match v with
  | VUndefined | VNull => true
  | _ => false
  end.

(** An object literal, a parsed JSON body, a decoded token payload or a row
    returned by the database driver. *)
Abbreviation obj := (gmap string value).

(** [o.k]: a property the object lacks reads as [undefined]. *)
Definition prop (o : obj) (k : string) : value := default VUndefined (o !! k).

(** [a.includes(v)] on an array of strings (SameValueZero). *)
Definition includes (a : list string) (v : value) : bool :=
  match v with
  | VStr s => bool_decide (s ∈ a)
  | _ => false
  end.

(** ** Responses *)

#[warnings="-register-all"]
Inductive json : Type :=
  | JVal (v : value)
  | JRow (r : obj)
  | JRows (rs : list obj)
  | JObj (fields : list (string * json)).

Inductive body : Type :=
  | BNone
  | BText (s : string)
  | BJson (j : json)
  | BFile (path : string).

(** The [res] object of a request while its handler runs. *)
Record response : Type := mkResponse {
  statusCode : Z;
  headers : gmap string string;
  sent : body
}.

Definition fresh_res : response :=
  {| statusCode := 200; headers := ∅; sent := BNone |}.

(** ** Server state *)

Inductive fs_event : Type :=
  | WriteFile (p : string)
  | PathJoin (p : string)
  | Unlink (p : string)
  | SendFile (p : string).

Record server : Type := mkServer {
  users : list obj;          (* table users *)
  files : list obj;          (* table files *)
  files_auto : Z;            (* AUTO_INCREMENT counter of files *)
  users_auto : Z;            (* AUTO_INCREMENT counter of users *)
  db_down : bool;            (* the storage collaborator fails every query *)
  refreshTokens : list string;
  fs_log : list fs_event
}.

Definition set_users (f : list obj → list obj) (s : server) : server :=
  {| users := f (users s); files := files s; files_auto := files_auto s;
     users_auto := users_auto s; db_down := db_down s;
     refreshTokens := refreshTokens s; fs_log := fs_log s |}.

Definition set_files (f : list obj → list obj) (s : server) : server :=
  {| users := users s; files := f (files s); files_auto := files_auto s;
     users_auto := users_auto s; db_down := db_down s;
     refreshTokens := refreshTokens s; fs_log := fs_log s |}.

Definition set_files_auto (n : Z) (s : server) : server :=
  {| users := users s; files := files s; files_auto := n;
     users_auto := users_auto s; db_down := db_down s;
     refreshTokens := refreshTokens s; fs_log := fs_log s |}.

Definition set_users_auto (n : Z) (s : server) : server :=
  {| users := users s; files := files s; files_auto := files_auto s;
     users_auto := n; db_down := db_down s;
     refreshTokens := refreshTokens s; fs_log := fs_log s |}.

Definition set_refreshTokens (f : list string → list string) (s : server) : server :=
  {| users := users s; files := files s; files_auto := files_auto s;
     users_auto := users_auto s; db_down := db_down s;
     refreshTokens := f (refreshTokens s); fs_log := fs_log s |}.

Definition log_fs (e : fs_event) (s : server) : server :=
  {| users := users s; files := files s; files_auto := files_auto s;
     users_auto := users_auto s; db_down := db_down s;
     refreshTokens := refreshTokens s; fs_log := (fs_log s ++ [e])%list |}.

(** ** Handlers as programs: state and exceptions *)

Record ctx : Type := mkCtx { srv : server; res : response }.

Inductive outcome (A : Type) : Type :=
  | Done (a : A)
  | Thrown (e : string).
Arguments Done {A} a.
Arguments Thrown {A} e.

Definition M (A : Type) : Type := ctx → outcome A * ctx.

Definition ret {A} (a : A) : M A := λ c, (Done a, c).
Definition throw {A} (e : string) : M A := λ c, (Thrown e, c).
Definition bind {A B} (m : M A) (k : A → M B) : M B :=
  λ c, match m c with
       | (Done a, c') => k a c'
       | (Thrown e, c') => (Thrown e, c')
       end.
(** [try { m } catch (error) { h }]: effects made before the throw stay. *)
Definition try_catch {A} (m : M A) (h : string → M A) : M A :=
  λ c, match m c with
       | (Done a, c') => (Done a, c')
       | (Thrown e, c') => h e c'
       end.

Declare Scope js_scope.
Delimit Scope js_scope with js.
Notation "'let*' x := m 'in' k" := (bind m (λ x, k))
  (at level 10, x name, m at level 100, k at level 200) : js_scope.
Notation "m >> k" := (bind m (λ _, k))
  (at level 100, k at level 200, right associativity) : js_scope.
Local Open Scope js_scope.

Definition get_srv : M server := λ c, (Done (srv c), c).
Definition modify_srv (f : server → server) : M unit :=
  λ c, (Done tt, {| srv := f (srv c); res := res c |}).
Definition modify_res (f : response → response) : M unit :=
  λ c, (Done tt, {| srv := srv c; res := f (res c) |}).

(** *** The Express response API used by the handlers *)

Definition content_type : string := "Content-Type".
Definition json_type : string := "application/json; charset=utf-8".
Definition text_type : string := "text/plain; charset=utf-8".

(** [res.status(code)] *)
Definition res_status (code : Z) : M unit :=
  modify_res (λ r, {| statusCode := code; headers := headers r; sent := sent r |}).

(** [res.json(j)]: the content type is set unless the handler set one. *)
Definition res_json (j : json) : M unit :=
  modify_res (λ r,
    {| statusCode := statusCode r;
       headers := match headers r !! content_type with
                  | Some _ => headers r
                  | None => <[content_type := json_type]> (headers r)
                  end;
       sent := BJson j |}).

Definition status_text (code : Z) : string :=
  if code =? 401 then "Unauthorized"
  else if code =? 403 then "Forbidden"
  else if code =? 204 then "No Content"
  else "".

(** [res.sendStatus(code)]: the status text as a plain-text body; a 204
    carries neither body nor content type. *)
Definition res_sendStatus (code : Z) : M unit :=
  modify_res (λ r,
    if code =? 204 then
      {| statusCode := code; headers := delete content_type (headers r); sent := BNone |}
    else
      {| statusCode := code; headers := <[content_type := text_type]> (headers r);
         sent := BText (status_text code) |}).

Definition error_body (msg : string) : json := JObj [("error", JVal (VStr msg))].
Definition message_body (msg : string) : json := JObj [("message", JVal (VStr msg))].

(** What Express answers when a handler lets an exception escape: a 500
    whose body, the error page, is kept as its title. *)
Definition uncaught (r : response) : response :=
  {| statusCode := 500; headers := headers r; sent := BText "Internal Server Error" |}.

(** Run a handler on a request: the response sent and the server state left. *)
Definition serve (h : M unit) (s : server) : response * server :=
  match h {| srv := s; res := fresh_res |} with
  | (Done _, c) => (res c, srv c)
  | (Thrown _, c) => (uncaught (res c), srv c)
  end.

(** [String(v)], as a template literal or a header value renders [v]. *)
Definition to_str (v : value) : string :=
  match v with
  | VUndefined => "undefined"
  | VNull => "null"
  | VBool true => "true"
  | VBool false => "false"
  | VNum n => pretty n
  | VStr s => s
  end.

(** [res.setHeader(name, v)]: Node refuses an [undefined] value. *)
Definition res_setHeader (name : string) (v : value) : M unit :=
  match v with
  | VUndefined => throw "ERR_HTTP_INVALID_HEADER_VALUE"
  | _ => modify_res (λ r,
           {| statusCode := statusCode r;
              headers := <[name := to_str v]> (headers r);
              sent := sent r |})
  end.

(** [res.sendFile(path)] *)
Definition res_sendFile (path : string) : M unit :=
  modify_srv (log_fs (SendFile path)) >>
  modify_res (λ r,
    {| statusCode := statusCode r; headers := headers r; sent := BFile path |}).

(** ** Query parameters and [parseInt] *)

(** A value of [req.query]: absent, a string, a repeated parameter or a
    bracketed one. *)
Inductive qvalue : Type :=
  | QAbsent
  | QStr (s : string)
  | QArr (items : list string)
  | QObj.

Fixpoint join_comma (l : list string) : string :=
  match l with
  | [] => ""
  | [x] => x
  | x :: l' => x +:+ "," +:+ join_comma l'
  end.

Definition qvalue_to_string (q : qvalue) : string :=
  match q with
  | QAbsent => "undefined"
  | QStr s => s
  | QArr l => join_comma l
  | QObj => "[object Object]"
  end.

(** White space that [parseInt] skips, among the code units below 256. *)
Definition is_white (c : ascii) : bool :=
  let n := nat_of_ascii c in
  ((9 <=? n)%nat && (n <=? 13)%nat) || (n =? 32)%nat || (n =? 160)%nat.

Fixpoint trim_left (s : string) : string :=
  match s with
  | EmptyString => EmptyString
  | String c s' => if is_white c then trim_left s' else s
  end.

Definition digit_value (c : ascii) : option Z :=
  let n := nat_of_ascii c in
  if (48 <=? n)%nat && (n <=? 57)%nat then Some (Z.of_nat n - 48)
  else if (97 <=? n)%nat && (n <=? 122)%nat then Some (Z.of_nat n - 87)
  else if (65 <=? n)%nat && (n <=? 90)%nat then Some (Z.of_nat n - 55)
  else None.

(** The value of the longest prefix of digits of the radix; [acc] is [None]
    until a digit has been read. *)
Fixpoint parse_digits (radix : Z) (s : string) (acc : option Z) : option Z :=
  match s with
  | EmptyString => acc
  | String c s' =>
      match digit_value c with
      | Some d =>
          if d <? radix then parse_digits radix s' (Some (radix * default 0 acc + d))
          else acc
      | None => acc
      end
  end.

(** The integer that [parseInt(s)], without a radix, reads in [s] before it
    is made a number; [None] when [s] starts no numeral. *)
Definition parse_integer (s : string) : option Z :=
  let s1 := trim_left s in
  let '(sign, s2) :=
    match s1 with
    | String "-" r => (-1, r)
    | String "+" r => (1, r)
    | _ => (1, s1)
    end in
  let '(radix, s3) :=
    match s2 with
    | String "0" (String "x" r) => (16, r)
    | String "0" (String "X" r) => (16, r)
    | _ => (10, s2)
    end in
  match parse_digits radix s3 None with
  | Some n => Some (sign * n)
  | None => None
  end.

(** A number whose value is an integer, an infinity or NaN.  [Num n] stands
    for the double [n]; zero carries no sign. *)
Inductive num : Type :=
  | NaN
  | Num (n : Z)
  | Infinity (negative : bool).

(** The double nearest to the integer [n], ties to the even significand of
    53 bits; beyond the largest double, an infinity. *)
Definition round_double (n : Z) : num :=
  let a := Z.abs n in
  if a <? 2 ^ 53 then Num n
  else
    let e := Z.log2 a - 52 in
    let q := a / 2 ^ e in
    let r := a mod 2 ^ e in
    let half := 2 ^ (e - 1) in
    let q' := if (half <? r) || ((r =? half) && Z.odd q) then q + 1 else q in
    let v := q' * 2 ^ e in
    if 2 ^ 1024 <=? v then Infinity (n <? 0) else Num (Z.sgn n * v).

(** [parseInt(s)] without a radix. *)
Definition parseInt_string (s : string) : num :=
  match parse_integer s with
  | Some n => round_double n
  | None => NaN
  end.

Definition parseInt (q : qvalue) : num := parseInt_string (qvalue_to_string q).

(** [n || d] on a number: [NaN] and zero are falsy. *)
Definition or_default (n : num) (d : Z) : num :=
  match n with
  | NaN => Num d
  | Num k => if k =? 0 then Num d else Num k
  | Infinity _ => n
  end.

(** [parseInt(req.query.list_size) || 10] and [parseInt(req.query.page) || 1] *)
Definition list_pageSize (list_size : qvalue) : num := or_default (parseInt list_size) 10.
Definition list_page (page : qvalue) : num := or_default (parseInt page) 1.

(** [a - b] and [a * b] on numbers. *)
Definition js_sub (a b : num) : num :=
  match a, b with
  | NaN, _ | _, NaN => NaN
  | Num x, Num y => round_double (x - y)
  | Infinity n, Infinity m => if Bool.eqb n m then NaN else Infinity n
  | Infinity n, Num _ => Infinity n
  | Num _, Infinity m => Infinity (negb m)
  end.

Definition js_mul (a b : num) : num :=
  match a, b with
  | NaN, _ | _, NaN => NaN
  | Num x, Num y => round_double (x * y)
  | Infinity n, Infinity m => Infinity (xorb n m)
  | Infinity n, Num y | Num y, Infinity n =>
      if y =? 0 then NaN else Infinity (xorb n (y <? 0))
  end.

(** [Math.ceil(a / b)] for a count [a] read from a row.  For a count below
    2^53 the quotient, when it is no integer, is not rounded to one, so the
    ceiling is that of the exact quotient. *)
Definition math_ceil_div (a : value) (b : num) : num :=
  match a, b with
  | VNum n, Num d =>
      if d =? 0 then (if n =? 0 then NaN else Infinity (n <? 0))
      else Num (- ((- n) / d))
  | VNum n, Infinity _ => Num 0
  | _, _ => NaN
  end.

(** A number as [JSON.stringify] renders it: infinities and NaN are
    [null]. *)
Definition num_value (n : num) : value :=
  match n with
  | Num k => VNum k
  | _ => VNull
  end.

(** ** Paths *)

(** [s.split(sep)] for a separator of one character. *)
Fixpoint split_on (sep : ascii) (s : string) : list string :=
  match s with
  | EmptyString => [EmptyString]
  | String c s' =>
      if Ascii.eqb c sep then EmptyString :: split_on sep s'
      else
        match split_on sep s' with
        | h :: t => String c h :: t
        | [] => [String c EmptyString]
        end
  end.

Fixpoint has_slash (s : string) : bool :=
  match s with
  | EmptyString => false
  | String c s' => if Ascii.eqb c "/" then true else has_slash s'
  end.

(** The part of a path after its last slash. *)
Fixpoint last_segment (s : string) : string :=
  match s with
  | EmptyString => EmptyString
  | String c s' => if has_slash s then last_segment s' else s
  end.

(** The suffix that starts at the last dot, if there is a dot. *)
Fixpoint from_last_dot (s : string) : option string :=
  match s with
  | EmptyString => None
  | String c s' =>
      match from_last_dot s' with
      | Some e => Some e
      | None => if Ascii.eqb c "." then Some s else None
      end
  end.

(** [path.extname(p)]: a dot that opens the name starts no extension. *)
Definition extname (p : string) : string :=
  match last_segment p with
  | EmptyString => EmptyString
  | String c rest =>
      if String.eqb (String c rest) ".." then EmptyString
      else default EmptyString (from_last_dot rest)
  end.

(** [path.basename(p, ext)] *)
Definition basename (p ext : string) : string :=
  let b := last_segment p in
  let n := String.length b in
  let k := String.length ext in
  if (k <? n)%nat && String.eqb (substring (n - k) k b) ext
  then substring 0 (n - k) b
  else b.

Fixpoint join_slash (l : list string) : string :=
  match l with
  | [] => EmptyString
  | [x] => x
  | x :: rest => x +:+ "/" +:+ join_slash rest
  end.

Fixpoint ends_with_slash (s : string) : bool :=
  match s with
  | EmptyString => false
  | String c EmptyString => Ascii.eqb c "/"
  | String _ s' => ends_with_slash s'
  end.

(** [normalizeString] of Node's [path] module, on the segments between the
    slashes; [res] holds the segments kept so far, the last one first.
    Empty segments and [.] are dropped; [..] removes the segment before it,
    and is kept where there is none to remove and the path is relative. *)
Fixpoint normalize_segments (allowAboveRoot : bool) (segs res : list string) : list string :=
  match segs with
  | [] => rev res
  | seg :: segs' =>
      if String.eqb seg "" || String.eqb seg "." then
        normalize_segments allowAboveRoot segs' res
      else if String.eqb seg ".." then
        match res with
        | last :: res' =>
            if String.eqb last ".." then
              normalize_segments allowAboveRoot segs'
                (if allowAboveRoot then ".." :: res else res)
            else normalize_segments allowAboveRoot segs' res'
        | [] =>
            normalize_segments allowAboveRoot segs'
              (if allowAboveRoot then [".."] else [])
        end
      else normalize_segments allowAboveRoot segs' (seg :: res)
  end.

(** [path.normalize(p)] of the POSIX platform. *)
Definition normalize (p : string) : string :=
  match p with
  | EmptyString => "."
  | String c _ =>
      let isAbsolute := Ascii.eqb c "/" in
      let trailingSeparator := ends_with_slash p in
      let kept := join_slash (normalize_segments (negb isAbsolute) (split_on "/" p) []) in
      match kept with
      | EmptyString => if isAbsolute then "/" else if trailingSeparator then "./" else "."
      | _ =>
          let kept' := if trailingSeparator then kept +:+ "/" else kept in
          if isAbsolute then "/" +:+ kept' else kept'
      end
  end.

Fixpoint string_segments (segs : list value) : option (list string) :=
  match segs with
  | [] => Some []
  | VStr x :: rest =>
      match string_segments rest with
      | Some l => Some (x :: l)
      | None => None
      end
  | _ => None
  end.

(** [path.join(...segments)]: every segment must be a string; the segments
    that are not empty are joined with slashes and the result is
    normalised.  The joined path is recorded in the filesystem log as a
    path resolution. *)
Definition join_segments (segs : list value) : option string :=
  match string_segments segs with
  | Some l =>
      Some (match List.filter (λ x, negb (String.eqb x "")) l with
            | [] => "."
            | l' => normalize (join_slash l')
            end)
  | None => None
  end.

Definition path_join (segs : list value) : M string :=
  match join_segments segs with
  | Some p => modify_srv (log_fs (PathJoin p)) >> ret p
  | None => throw "TypeError [ERR_INVALID_ARG_TYPE]: the path argument must be of type string"
  end.

(** [fs.unlink(path, callback)]: the callback only logs a failure. *)
Definition fs_unlink (path : string) : M unit := modify_srv (log_fs (Unlink path)).

(** ** The storage collaborator *)

(** How the pool answers [pool.query(sql, values)] called without a
    callback and awaited.  [Callback] is the pool of
    [src/config/database.js] ([createPool] of the [mysql] package): the call
    returns a Query object, which is no promise.  [Promisified] is a pool
    whose [query] returns a promise of the rows. *)
Inductive pool_api : Type :=
  | Callback
  | Promisified.

(** The value of [await pool.query(sql, values)]. *)
Inductive awaited : Type :=
  | QueryObject
  | Rows (rows : list obj)
  | OkPacket.

(** [result[0]]: a Query object has no such property. *)
Definition first_row (result : awaited) : option obj :=
  match result with
  | Rows (row :: _) => Some row
  | _ => None
  end.

(** A result placed in a JSON body. *)
Definition awaited_json (result : awaited) : json :=
  match result with
  | Rows rows => JRows rows
  | _ => JObj []
  end.

(** An uploaded file as multer hands it to a handler ([req.file]);
    [filename] is the name the storage engine gave the blob. *)
Record upload : Type := mkUpload {
  originalname : string;
  mimetype : string;
  size : Z;
  filename : string
}.

(** [diskStorage]'s [filename] callback: [Date.now() + "-" +
    Math.round(Math.random() * 1e9)] followed by the original extension. *)
Definition storage_filename (now rnd : Z) (original : string) : string :=
  let uniqueSuffix := pretty now +:+ "-" +:+ pretty rnd in
  uniqueSuffix +:+ extname original.

(** ** Header values *)

(** [!v] *)
Definition falsy (v : value) : bool :=
  match v with
  | VUndefined | VNull | VBool false | VNum 0 | VStr EmptyString => true
  | _ => false
  end.

(** ** External collaborators

    The libraries the server calls are not part of the repository; the
    handlers are written against this interface.  *)

Record platform : Type := mkPlatform {
  (** the store's comparison [column = ?] of a column with a bound parameter *)
  sql_eq : value → value → bool;
  (** [bcrypt.hash(data, rounds)] and [bcrypt.compare(data, hash)] on strings *)
  bcrypt_hash : string → Z → string;
  bcrypt_compare : string → string → bool;
  (** [jwt.sign(payload, secret, {expiresIn})] *)
  jwt_sign : obj → string → string → string;
  (** [jwt.verify(token, secret)]: the decoded payload, or [None] when the
      signature or the expiry check fails *)
  jwt_verify : string → string → option obj;
  (** Joi's [string().email()] rule *)
  valid_email : string → bool;
  (** [process.env.ACCESS_SECRET_TOKEN], [process.env.REFRESH_TOKEN_SECRET] *)
  ACCESS_SECRET_TOKEN : string;
  REFRESH_TOKEN_SECRET : string;
  (** [__dirname] of the server module *)
  dirname : string;
  (** the pool's answer to an awaited [query] *)
  pool : pool_api;
  (** the rows the store returns for [LIMIT ? OFFSET ?] over the rows of a
      table, [None] when it rejects the two values *)
  sql_page : num → num → list obj → option (list obj)
}.

(** ** The registration schema (Joi) *)

Inductive rule : Type :=
  | Email
  | Length (n : nat)
  | Min (n : nat).

(** Every key of the schema is [Joi.string() ... .required()]. *)
Definition registrationSchema : list (string * list rule) :=
  [ ("firstName", []);
    ("lastName", []);
    ("email", [Email]);
    ("phoneNumber", [Length 12]);
    ("password", [Min 5]) ].

Definition dquote : string := String (ascii_of_nat 34) EmptyString.
Definition label (key : string) : string := dquote +:+ key +:+ dquote.

Section Handlers.
Variable P : platform.

Definition check_rule (key s : string) (r : rule) : option string :=
  match r with
  | Email =>
      if valid_email P s then None
      else Some (label key +:+ " must be a valid email")
  | Length n =>
      if Nat.eqb (String.length s) n then None
      else Some (label key +:+ " length must be " +:+ pretty n +:+ " characters long")
  | Min n =>
      if Nat.leb n (String.length s) then None
      else Some (label key +:+ " length must be at least " +:+ pretty n
                 +:+ " characters long")
  end.

Fixpoint check_rules (key s : string) (rs : list rule) : option string :=
  match rs with
  | [] => None
  | r :: rs' =>
      match check_rule key s r with
      | Some msg => Some msg
      | None => check_rules key s rs'
      end
  end.

(** One key of a schema of required strings: an [undefined] value is a
    missing key. *)
Definition check_key (key : string) (rs : list rule) (v : value) : option string :=
  match v with
  | VUndefined => Some (label key +:+ " is required")
  | VStr EmptyString => Some (label key +:+ " is not allowed to be empty")
  | VStr s => check_rules key s rs
  | _ => Some (label key +:+ " must be a string")
  end.

(** [schema.validate(o).error] for an object [o] whose keys all belong to
    the schema: the message of the first failing key, in the order of the
    schema ([abortEarly]).  The handler passes an object literal of four
    such keys.  Joi's rejection of a key the schema does not know is not
    part of this function. *)
Fixpoint validate (schema : list (string * list rule)) (o : obj) : option string :=
  match schema with
  | [] => None
  | (key, rs) :: schema' =>
      match check_key key rs (prop o key) with
      | Some msg => Some msg
      | None => validate schema' o
      end
  end.

(** [bcrypt.hash] and [bcrypt.compare] reject arguments that are not
    strings. *)
Definition bcrypt_hash_js (data : value) (rounds : Z) : M string :=
  match data with
  | VStr d => ret (bcrypt_hash P d rounds)
  | _ => throw "data and salt arguments required"
  end.

Definition bcrypt_compare_js (data hash : value) : M bool :=
  match data, hash with
  | VStr d, VStr h => ret (bcrypt_compare P d h)
  | _, _ => throw "data and hash must be strings"
  end.

(** [jwt.verify(token, secret, callback)]: [None] is the callback's [err]. *)
Definition jwt_verify_js (token : value) (secret : string) : option obj :=
  match token with
  | VStr t => jwt_verify P t secret
  | _ => None
  end.

(** *** POST /users/signup *)

(** [pool.query(INSERT INTO users (first_name, last_name, email, password))]
    without a callback: the outcome of the insert is not observed. *)
Definition insert_user (first_name last_name email password : value) (s : server) : server :=
  if db_down s then s
  else
    let row : obj :=
      <["id" := VNum (users_auto s)]>
      (<["first_name" := first_name]>
      (<["last_name" := last_name]>
      (<["email" := email]>
      (<["phone_number" := VNull]>
      (<["password" := password]> ∅))))) in
    set_users_auto (users_auto s + 1) (set_users (λ us, (us ++ [row])%list) s).

Definition users_signup (req_body : obj) : M unit :=
  let firstName := prop req_body "firstName" in
  let lastName := prop req_body "lastName" in
  let email := prop req_body "email" in
  let password := prop req_body "password" in
  let error :=
    validate registrationSchema
      (<["firstName" := firstName]>
      (<["lastName" := lastName]>
      (<["email" := email]>
      (<["password" := password]> ∅)))) in
  match error with
  | Some msg => res_status 400 >> res_json (error_body msg)
  | None =>
      try_catch
        (let* hashedPassword := bcrypt_hash_js password 10 in
         modify_srv (insert_user firstName lastName email (VStr hashedPassword)) >>
         res_status 200 >>
         res_json (message_body "User registered successfully"))
        (λ _, res_status 500 >>
              res_json (error_body "Error during user registration"))
  end.

(** *** POST /signin/new_token

    The callback calls [generateAccessToken], an identifier that no file
    of the repository declares.  [scope] is what the module's scope binds
    it to: [None] in the source as it stands (evaluating it throws a
    ReferenceError), [Some g] were a definition [g] supplied. *)
Definition signin_new_token_in (scope : option (obj → string)) (req_body : obj) : M unit :=
  let refreshToken := prop req_body "token" in
  if is_nullish refreshToken then res_sendStatus 401
  else
    let* s := get_srv in
    if negb (includes (refreshTokens s) refreshToken) then res_sendStatus 403
    else
      match jwt_verify_js refreshToken (REFRESH_TOKEN_SECRET P) with
      | None => res_sendStatus 403
      | Some user =>
          match scope with
          | None => throw "ReferenceError: generateAccessToken is not defined"
          | Some generateAccessToken =>
              let accessToken :=
                generateAccessToken (<["name" := prop user "name"]> ∅) in
              res_json (JObj [("accessToken", JVal (VStr accessToken))])
          end
      end.

Definition signin_new_token : obj → M unit := signin_new_token_in None.

(** *** POST /users/signin *)

(** [SELECT * FROM users WHERE email = ? OR phone_number = ?] *)
Definition select_user (identifier : value) (s : server) : list obj :=
  List.filter
    (λ u, sql_eq P (prop u "email") identifier
          || sql_eq P (prop u "phone_number") identifier)
    (users s).

Definition invalid_credentials : M unit :=
  res_status 401 >> res_json (error_body "Invalid credentials").

Definition users_signin (req_body : obj) : M unit :=
  let identifier := prop req_body "identifier" in
  let password := prop req_body "password" in
  let* s := get_srv in
  if db_down s then
    res_status 500 >> res_json (error_body "Internal server error")
  else
    match select_user identifier s with
    | [] => res_status 401 >> res_json (error_body "Invalid credentials")
    | user :: _ =>
        try_catch
          (let* isPasswordValid := bcrypt_compare_js password (prop user "password") in
           if negb isPasswordValid then
             res_status 401 >> res_json (error_body "Invalid credentials")
           else
             let payload : obj := <["userId" := prop user "id"]> ∅ in
             let accessToken := jwt_sign P payload (ACCESS_SECRET_TOKEN P) "10m" in
             let refreshToken := jwt_sign P payload (REFRESH_TOKEN_SECRET P) "7d" in
             modify_srv (set_refreshTokens (λ ts, (ts ++ [refreshToken])%list)) >>
             res_status 200 >>
             res_json (JObj [("accessToken", JVal (VStr accessToken));
                             ("refreshToken", JVal (VStr refreshToken))]))
          (λ _, res_status 500 >> res_json (error_body "Internal server error"))
    end.

(** *** DELETE /logout *)

Definition logout (req_body : obj) : M unit :=
  modify_srv (set_refreshTokens
    (List.filter (λ token, negb (bool_decide (VStr token = prop req_body "token"))))) >>
  res_sendStatus 204.

(** ** File handlers *)

(** The rows [SELECT * FROM files WHERE id = ?] selects. *)
Definition matching_files (fileId : string) (s : server) : list obj :=
  List.filter (λ f, sql_eq P (prop f "id") (VStr fileId)) (files s).

(** [await pool.query(sql, values)] for a statement that reads: [rows] are
    the rows it selects, [None] when the store rejects it.  With the
    callback pool the statement is sent and its outcome is not seen. *)
Definition await_rows (rows : server → option (list obj)) : M awaited :=
  λ c, match pool P with
       | Callback => (Done QueryObject, c)
       | Promisified =>
           if db_down (srv c) then (Thrown "storage error", c)
           else
             match rows (srv c) with
             | Some rs => (Done (Rows rs), c)
             | None => (Thrown "ER_PARSE_ERROR", c)
             end
       end.

(** [await pool.query(sql, values)] for a statement that writes. *)
Definition await_write (write : server → server) : M awaited :=
  λ c, match pool P with
       | Callback =>
           (Done QueryObject,
            {| srv := if db_down (srv c) then srv c else write (srv c); res := res c |})
       | Promisified =>
           if db_down (srv c) then (Thrown "storage error", c)
           else (Done OkPacket, {| srv := write (srv c); res := res c |})
       end.

Definition select_file (fileId : string) : M awaited :=
  await_rows (λ s, Some (matching_files fileId s)).

Definition uploads_path (name : value) : M string :=
  path_join [VStr (dirname P); VStr "uploads"; name].

(** *** POST /file/upload *)

(** [INSERT INTO files (name, extension, mime_type, size)]: the column
    [filename] is not in the list and takes its default, NULL. *)
Definition insert_file (name extension mime_type : string) (sz : Z) (s : server) : server :=
  let row : obj :=
    <["id" := VNum (files_auto s)]>
    (<["name" := VStr name]>
    (<["extension" := VStr extension]>
    (<["mime_type" := VStr mime_type]>
    (<["size" := VNum sz]>
    (<["filename" := VNull]> ∅))))) in
  set_files_auto (files_auto s + 1) (set_files (λ fs, (fs ++ [row])%list) s).

(** The [upload.single("file")] stage ([dest: "uploads/"]) has written the
    blob under a name of multer's own before the handler runs. *)
Definition file_upload (req_file : option upload) : M unit :=
  match req_file with
  | None => throw "TypeError: Cannot destructure property of undefined"
  | Some f =>
      let extension := extname (originalname f) in
      let name := basename (originalname f) extension in
      modify_srv (log_fs (WriteFile ("uploads/" +:+ filename f))) >>
      let* s := get_srv in
      if db_down s then
        res_status 500 >> res_json (error_body "Error inserting data into database")
      else
        modify_srv (insert_file name extension (mimetype f) (size f)) >>
        res_status 200 >>
        res_json (message_body "File uploaded and data recorded successfully")
  end.

(** *** GET /file/list *)

(** [SELECT COUNT( * ) AS total FROM files] *)
Definition count_files : M awaited :=
  await_rows (λ s, Some [ <["total" := VNum (Z.of_nat (length (files s)))]> (∅ : obj) ]).

(** [SELECT * FROM files LIMIT ? OFFSET ?] with [[pageSize, offset]] *)
Definition select_page (limit offset : num) : M awaited :=
  await_rows (λ s, sql_page P limit offset (files s)).

Definition file_list (list_size page_param : qvalue) : M unit :=
  let pageSize := list_pageSize list_size in
  let page := list_page page_param in
  let offset := js_mul (js_sub page (Num 1)) pageSize in
  try_catch
    (let* totalCountResult := count_files in
     let* totalCount :=
       match first_row totalCountResult with
       | Some r => ret (prop r "total")
       | None => throw "TypeError: Cannot read properties of undefined"
       end in
     let* files := select_page pageSize offset in
     let totalPages := math_ceil_div totalCount pageSize in
     res_status 200 >>
     res_json (JObj [("files", awaited_json files);
                     ("pagination",
                      JObj [("totalFiles", JVal totalCount);
                            ("totalPages", JVal (num_value totalPages));
                            ("currentPage", JVal (num_value page));
                            ("pageSize", JVal (num_value pageSize))])]))
    (λ _, res_status 500 >>
          res_json (error_body "Error retrieving files from database")).

(** *** DELETE /file/delete/:id *)

Definition file_delete (fileId : string) : M unit :=
  try_catch
    (let* result := select_file fileId in
     match first_row result with
     | None => res_status 404 >> res_json (error_body "File not found")
     | Some file =>
         await_write (set_files
           (List.filter (λ f, negb (sql_eq P (prop f "id") (VStr fileId))))) >>
         let* filePath := uploads_path (prop file "filename") in
         fs_unlink filePath >>
         res_status 200 >> res_json (message_body "File deleted successfully")
     end)
    (λ _, res_status 500 >> res_json (error_body "Error deleting file")).

(** *** GET /file/:id *)

Definition file_get (fileId : string) : M unit :=
  try_catch
    (let* result := select_file fileId in
     match first_row result with
     | None => res_status 404 >> res_json (error_body "File not found")
     | Some file => res_status 200 >> res_json (JObj [("file", JRow file)])
     end)
    (λ _, res_status 500 >> res_json (error_body "Error retrieving file")).

(** *** GET /file/download/:id *)

Definition file_download (fileId : string) : M unit :=
  try_catch
    (let* result := select_file fileId in
     match first_row result with
     | None => res_status 404 >> res_json (error_body "File not found")
     | Some file =>
         let* filePath := uploads_path (prop file "filename") in
         res_setHeader "Content-Disposition"
           (VStr ("attachment; filename=" +:+ to_str (prop file "filename"))) >>
         res_setHeader content_type (prop file "mimeType") >>
         res_sendFile filePath
     end)
    (λ _, res_status 500 >> res_json (error_body "Error downloading file")).

(** *** PUT /file/update/:id *)

(** [UPDATE files SET filename = ? WHERE id = ?] *)
Definition update_filename (newFilename fileId : string) (s : server) : server :=
  set_files
    (map (λ f : obj, if sql_eq P (prop f "id") (VStr fileId)
               then <["filename" := VStr newFilename]> f else f)) s.

(** The [update.single("file")] stage that runs before the handler: the
    attachment, when there is one, is written under its generated name. *)
Definition multer_store (req_file : option upload) : M unit :=
  match req_file with
  | Some f => modify_srv (log_fs (WriteFile (dirname P +:+ "/uploads/" +:+ filename f)))
  | None => ret tt
  end.

Definition file_update_handler (fileId : string) (req_file : option upload) : M unit :=
  try_catch
    (let* result := select_file fileId in
     match first_row result with
     | None => res_status 404 >> res_json (error_body "File not found")
     | Some file =>
         let* filePath := uploads_path (prop file "filename") in
         fs_unlink filePath >>
         let* newFilename :=
           match req_file with
           | Some f => ret (filename f)
           | None => throw "TypeError: Cannot read properties of undefined"
           end in
         await_write (update_filename newFilename fileId) >>
         res_status 200 >> res_json (message_body "File updated successfully")
     end)
    (λ _, res_status 500 >> res_json (error_body "Error updating file")).

Definition file_update (fileId : string) (req_file : option upload) : M unit :=
  multer_store req_file >> file_update_handler fileId req_file.

(** *** The guard [authenticateToken]

    [req.headers["authorization"]] is a string or absent.  The guard either
    sends a status and stops ([None]), or sets [req.user] to the claims and
    calls [next()] ([Some user]). *)
Definition authenticateToken (authHeader : option string) : M (option obj) :=
  let token : value :=
    match authHeader with
    | None => VUndefined
    | Some h =>
        if falsy (VStr h) then VStr h
        else
          match split_on " " h !! 1%nat with
          | Some t => VStr t
          | None => VUndefined
          end
    end in
  if falsy token then res_sendStatus 401 >> ret None
  else
    match jwt_verify_js token (ACCESS_SECRET_TOKEN P) with
    | None => res_sendStatus 403 >> ret None
    | Some user => ret (Some user)
    end.

End Handlers.

(** ** A concrete platform, to run the handlers on examples *)

Module Demo.

Definition eq_param (col param : value) : bool :=
  match col, param with
  | (VUndefined | VNull), _ => false
  | _, (VUndefined | VNull) => false
  | _, _ => String.eqb (to_str col) (to_str param)
  end.

Definition hash (data : string) (rounds : Z) : string :=
  "$2b$" +:+ pretty rounds +:+ "$" +:+ data.

Definition sign (payload : obj) (secret expiresIn : string) : string :=
  secret +:+ "." +:+ to_str (prop payload "userId") +:+ "." +:+ expiresIn.

(** Accepts the tokens [sign] issues for the users 7 and 8. *)
Definition verify (token secret : string) : option obj :=
  if String.eqb token (secret +:+ ".7.7d") then
    Some (<["userId" := VNum 7]> (<["iat" := VNum 0]> (<["exp" := VNum 604800]> ∅)))
  else if String.eqb token (secret +:+ ".8.7d") then
    Some (<["userId" := VNum 8]> (<["iat" := VNum 0]> (<["exp" := VNum 604800]> ∅)))
  else None.

Definition has_at (s : string) : bool :=
  match index 0 "@" s with Some _ => true | None => false end.

(** [LIMIT] and [OFFSET] take integers that are not negative. *)
Definition page_rows (limit offset : num) (rows : list obj) : option (list obj) :=
  match limit, offset with
  | Num l, Num o =>
      if (l <? 0) || (o <? 0) then None
      else Some (take (Z.to_nat l) (drop (Z.to_nat o) rows))
  | _, _ => None
  end.

(** The libraries, with the pool as [src/config/database.js] creates it. *)
Definition libs : platform :=
  {| sql_eq := eq_param;
     bcrypt_hash := hash;
     bcrypt_compare := λ data h, String.eqb h (hash data 10);
     jwt_sign := sign;
     jwt_verify := verify;
     valid_email := has_at;
     ACCESS_SECRET_TOKEN := "access";
     REFRESH_TOKEN_SECRET := "refresh";
     dirname := "/app";
     pool := Callback;
     sql_page := page_rows |}.

Definition empty_server : server :=
  {| users := []; files := []; files_auto := 1; users_auto := 1;
     db_down := false; refreshTokens := []; fs_log := [] |}.

Definition alice : obj :=
  <["id" := VNum 7]>
  (<["first_name" := VStr "Alice"]>
  (<["last_name" := VStr "Doe"]>
  (<["email" := VStr "alice@example.com"]>
  (<["phone_number" := VStr "+37499123456"]>
  (<["password" := VStr (hash "secret" 10)]> ∅))))).

Definition with_alice : server := set_users (λ _, [alice]) empty_server.

Definition two_sessions : server :=
  set_refreshTokens (λ _, ["refresh.7.7d"; "refresh.8.7d"]) with_alice.

Definition signup_body : obj :=
  <["firstName" := VStr "Alice"]>
  (<["lastName" := VStr "Doe"]>
  (<["email" := VStr "alice@example.com"]>
  (<["phoneNumber" := VStr "+37499123456"]>
  (<["password" := VStr "secret"]> ∅)))).

Definition signin_body (identifier password : string) : obj :=
  <["identifier" := VStr identifier]> (<["password" := VStr password]> ∅).

Definition token_body (t : string) : obj := <["token" := VStr t]> ∅.

Definition report : upload :=
  {| originalname := "report.pdf"; mimetype := "application/pdf"; size := 1024;
     filename := "3f2a9c" |}.

Definition report_v2 : upload :=
  {| originalname := "report-v2.pdf"; mimetype := "application/pdf"; size := 2048;
     filename := storage_filename 1700000000000 42 "report-v2.pdf" |}.

(** A row of [files] whose [filename] column holds a stored name. *)
Definition stored_row : obj :=
  <["id" := VNum 1]>
  (<["name" := VStr "report"]>
  (<["extension" := VStr ".pdf"]>
  (<["mime_type" := VStr "application/pdf"]>
  (<["size" := VNum 1024]>
  (<["filename" := VStr "1690000000000-7.pdf"]> ∅))))).

Definition with_stored_row : server :=
  set_files_auto 2 (set_files (λ _, [stored_row]) empty_server).

Definition numbered_row (i : nat) : obj :=
  <["id" := VNum (Z.of_nat (S i))]> (<["filename" := VNull]> ∅).

Definition with_25_files : server :=
  set_files_auto 26 (set_files (λ _, map numbered_row (seq 0 25)) empty_server).

(** A verifier that also accepts the access token issued to user 7. *)
Definition verify_access (token secret : string) : option obj :=
  if String.eqb token (sign (<["userId" := VNum 7]> ∅) secret "10m") then
    Some (<["userId" := VNum 7]> (<["iat" := VNum 0]> (<["exp" := VNum 600]> ∅)))
  else verify token secret.

Definition libs_access : platform :=
  {| sql_eq := eq_param;
     bcrypt_hash := hash;
     bcrypt_compare := λ data h, String.eqb h (hash data 10);
     jwt_sign := sign;
     jwt_verify := verify_access;
     valid_email := has_at;
     ACCESS_SECRET_TOKEN := "access";
     REFRESH_TOKEN_SECRET := "refresh";
     dirname := "/app";
     pool := Callback;
     sql_page := page_rows |}.

Definition identifier_body (identifier : string) : obj :=
  <["identifier" := VStr identifier]> ∅.

(** The same with a pool whose awaited [query] resolves to the rows. *)
Definition libs_promisified : platform :=
  {| sql_eq := eq_param;
     bcrypt_hash := hash;
     bcrypt_compare := λ data h, String.eqb h (hash data 10);
     jwt_sign := sign;
     jwt_verify := verify;
     valid_email := has_at;
     ACCESS_SECRET_TOKEN := "access";
     REFRESH_TOKEN_SECRET := "refresh";
     dirname := "/app";
     pool := Promisified;
     sql_page := page_rows |}.

(** A row as the upload handler inserts it. *)
Definition unstored_row : obj :=
  <["id" := VNum 2]>
  (<["name" := VStr "notes"]>
  (<["extension" := VStr ".txt"]>
  (<["mime_type" := VStr "text/plain"]>
  (<["size" := VNum 12]>
  (<["filename" := VNull]> ∅))))).

Definition with_two_rows : server :=
  set_files_auto 3 (set_files (λ _, [stored_row; unstored_row]) empty_server).

End Demo.

(** ** Vocabulary of the properties *)

(** The response [res.status(code).json(j)] of a handler that has set no
    header. *)
Definition json_response (code : Z) (j : json) : response :=
  {| statusCode := code; headers := {[content_type := json_type]}; sent := BJson j |}.

(** What the spec calls a valid-shaped body. *)
Definition valid_shape (P : platform) (req_body : obj) : Prop :=
  ∃ firstName lastName email phoneNumber password : string,
    req_body !! "firstName" = Some (VStr firstName) ∧ firstName ≠ "" ∧
    req_body !! "lastName" = Some (VStr lastName) ∧ lastName ≠ "" ∧
    req_body !! "email" = Some (VStr email) ∧ email ≠ "" ∧ valid_email P email = true ∧
    req_body !! "phoneNumber" = Some (VStr phoneNumber) ∧ String.length phoneNumber = 12%nat ∧
    req_body !! "password" = Some (VStr password) ∧ (5 ≤ String.length password)%nat.

(** The response of [res.sendStatus(403)]. *)
Definition forbidden : response :=
  {| statusCode := 403; headers := {[content_type := text_type]}; sent := BText "Forbidden" |}.

(** The response of [res.sendStatus(204)]. *)
Definition no_content : response :=
  {| statusCode := 204; headers := ∅; sent := BNone |}.

(** The response of both failing branches of signin. *)
Definition invalid_credentials_response : response :=
  json_response 401 (error_body "Invalid credentials").

(** The response of the file handlers when no row is selected. *)
Definition not_found : response := json_response 404 (error_body "File not found").






(** The keys of the registration schema. *)
Definition schema_keys : list string := map fst registrationSchema.

(** An object all of whose keys the schema knows. *)
Definition known_keys (o : obj) : bool :=
  forallb (λ k, bool_decide (k ∈ schema_keys)) (map fst (map_to_list o)).

(** Strings made of decimal digits, of characters other than the dot and
    the slash, of characters other than the space. *)
Definition is_digit (c : ascii) : bool :=
  (48 <=? nat_of_ascii c)%nat && (nat_of_ascii c <=? 57)%nat.

Fixpoint all_chars (f : ascii → bool) (s : string) : bool :=
  match s with
  | EmptyString => true
  | String c s' => f c && all_chars f s'
  end.

Definition no_space (s : string) : bool :=
  all_chars (λ c, negb (Ascii.eqb c " ")) s.

(** Run the guard on a request: what it passes on ([req.user] when it calls
    [next()]), the response, and the server state left. *)
Definition run_guard (g : M (option obj)) (s : server) : option obj * response * server :=
  match g {| srv := s; res := fresh_res |} with
  | (Done user, c) => (user, res c, srv c)
  | (Thrown _, c) => (None, uncaught (res c), srv c)
  end.

(** The response of [res.sendStatus(401)]. *)
Definition unauthorized : response :=
  {| statusCode := 401; headers := {[content_type := text_type]};
     sent := BText "Unauthorized" |}.


(** The response of the list handler's [catch]. *)
Definition list_failure : response :=
  json_response 500 (error_body "Error retrieving files from database").

(** A character that is neither the slash nor the dot. *)
Definition plain (c : ascii) : bool := negb (Ascii.eqb c "/") && negb (Ascii.eqb c ".").

(** The server after the storage stage of an update. *)
Definition stored (P : platform) (req_file : option upload) (s : server) : server :=
  match req_file with
  | Some f => log_fs (WriteFile (dirname P +:+ "/uploads/" +:+ filename f)) s
  | None => s
  end.

(** * Properties *)

(** ** Running handlers *)

Ltac run :=
  cbv [serve bind ret throw try_catch get_srv modify_srv modify_res
       res_status res_json res_sendStatus res_setHeader res_sendFile
       await_rows await_write fs_unlink srv res]; cbn [srv res fst snd].

Lemma prop_lookup_None (o : obj) (k : string) : o !! k = None → prop o k = VUndefined.
Proof. intros H. unfold prop. by rewrite H. Qed.

Lemma prop_lookup_Some (o : obj) (k : string) (v : value) : o !! k = Some v → prop o k = v.
Proof. intros H. unfold prop. by rewrite H. Qed.

Lemma fresh_json_headers :
  match headers fresh_res !! content_type with
  | Some _ => headers fresh_res
  | None => <[content_type := json_type]> (headers fresh_res)
  end = {[content_type := json_type]}.
Proof. reflexivity. Qed.

(** *** Signup *)

Lemma check_key_undefined P key rs :
  check_key P key rs VUndefined = Some (label key +:+ " is required").
Proof. reflexivity. Qed.

Lemma validate_missing_phoneNumber P (o : obj) :
  o !! "phoneNumber" = None →
  ∃ msg, validate P registrationSchema o = Some msg.
Proof.
  intros Hph. unfold registrationSchema. cbn [validate].
  destruct (check_key P "firstName" [] (prop o "firstName")); [eauto |].
  destruct (check_key P "lastName" [] (prop o "lastName")); [eauto |].
  destruct (check_key P "email" [Email] (prop o "email")); [eauto |].
  rewrite (prop_lookup_None o "phoneNumber" Hph), check_key_undefined. eauto.
Qed.

Lemma check_key_string P key rs (s : string) :
  s ≠ "" → check_key P key rs (VStr s) = check_rules P key s rs.
Proof. destruct s; [congruence | reflexivity]. Qed.

(** A valid-shaped body passes the schema when the schema is given the
    whole body. *)
Lemma validate_valid_shape P (req_body : obj) :
  valid_shape P req_body → validate P registrationSchema req_body = None.
Proof.
  intros (f & l & e & ph & pw & Hf & Hf' & Hl & Hl' & He & He' & Hv & Hph & Hph' & Hpw & Hpw').
  unfold registrationSchema. cbn [validate].
  rewrite (prop_lookup_Some _ _ _ Hf), (prop_lookup_Some _ _ _ Hl),
    (prop_lookup_Some _ _ _ He), (prop_lookup_Some _ _ _ Hph),
    (prop_lookup_Some _ _ _ Hpw).
  rewrite !check_key_string; try done.
  - cbn [check_rules check_rule]. rewrite Hv, Hph', Nat.eqb_refl.
    apply Nat.leb_le in Hpw'. by rewrite Hpw'.
  - intros ->. cbn in Hpw'. lia.
  - intros ->. cbn in Hph'. lia.
Qed.

(** The object literal the handler gives to the schema. *)
Lemma signup_object_props (a b c d : value) :
  let o : obj :=
    <["firstName" := a]> (<["lastName" := b]> (<["email" := c]> (<["password" := d]> ∅))) in
  prop o "firstName" = a ∧ prop o "lastName" = b ∧ prop o "email" = c ∧
  prop o "phoneNumber" = VUndefined.
Proof. unfold prop. by simplify_map_eq. Qed.

(** C1 (as the code behaves): the handler validates an object built from
    [firstName], [lastName], [email] and [password] only, while the schema
    requires [phoneNumber]; so every signup request, valid-shaped or not,
    is answered 400 with a validation message, and no user row is inserted.
    For a valid-shaped body the message is that of the missing
    [phoneNumber]. *)
Theorem users_signup_always_rejects (P : platform) (req_body : obj) (s : server) :
  (∃ msg, serve (users_signup P req_body) s = (json_response 400 (error_body msg), s)) ∧
  (valid_shape P req_body →
   validate P registrationSchema req_body = None ∧
   serve (users_signup P req_body) s
   = (json_response 400 (error_body (label "phoneNumber" +:+ " is required")), s)).
Proof.
  split.
  - unfold users_signup.
    edestruct (validate_missing_phoneNumber P) as [msg ->]; [| exists msg; by destruct s].
    by rewrite !lookup_insert_ne.
  - intros Hv. split; [by apply validate_valid_shape |].
    destruct Hv as (f & l & e & ph & pw & Hf & Hf' & Hl & Hl' & He & He' & Hv & _ & _ & Hpw & Hpw').
    unfold users_signup, registrationSchema. cbn [validate].
    rewrite (prop_lookup_Some _ _ _ Hf), (prop_lookup_Some _ _ _ Hl),
      (prop_lookup_Some _ _ _ He), (prop_lookup_Some _ _ _ Hpw).
    destruct (signup_object_props (VStr f) (VStr l) (VStr e) (VStr pw)) as (-> & -> & -> & ->).
    rewrite !check_key_string by done.
    cbn [check_rules check_rule]. rewrite Hv. cbn [check_key]. by destruct s.
Qed.

(** The same on a concrete valid-shaped body. *)
Example users_signup_demo :
  validate Demo.libs registrationSchema Demo.signup_body = None ∧
  statusCode (fst (serve (users_signup Demo.libs Demo.signup_body) Demo.empty_server)) = 400 ∧
  users (snd (serve (users_signup Demo.libs Demo.signup_body) Demo.empty_server)) = [].
Proof. by vm_compute. Qed.

(** *** Token refresh and logout *)

Lemma includes_spec (a : list string) (v : value) :
  includes a v = true ↔ ∃ t, v = VStr t ∧ t ∈ a.
Proof.
  destruct v; cbn; try (split; [done | by intros (? & ? & ?)]).
  rewrite bool_decide_eq_true. split; [eauto | by intros (? & [= ->] & ?)].
Qed.

(** The three ways the refresh handler turns a request down. *)
Lemma new_token_missing (P : platform) scope (req_body : obj) (s : server) :
  is_nullish (prop req_body "token") = true →
  serve (signin_new_token_in P scope req_body) s
  = ({| statusCode := 401; headers := {[content_type := text_type]};
        sent := BText "Unauthorized" |}, s).
Proof. intros H. unfold signin_new_token_in. rewrite H. run. by destruct s. Qed.

Lemma new_token_unregistered (P : platform) scope (req_body : obj) (s : server) :
  is_nullish (prop req_body "token") = false →
  includes (refreshTokens s) (prop req_body "token") = false →
  serve (signin_new_token_in P scope req_body) s = (forbidden, s).
Proof. intros H H0. unfold signin_new_token_in. rewrite H. run. rewrite H0. by destruct s. Qed.

Lemma includes_not_nullish (a : list string) (v : value) :
  includes a v = true → is_nullish v = false.
Proof. by destruct v. Qed.

Lemma new_token_unverified (P : platform) scope (req_body : obj) (s : server) :
  includes (refreshTokens s) (prop req_body "token") = true →
  jwt_verify_js P (prop req_body "token") (REFRESH_TOKEN_SECRET P) = None →
  serve (signin_new_token_in P scope req_body) s = (forbidden, s).
Proof.
  intros H H0. unfold signin_new_token_in.
  rewrite (includes_not_nullish _ _ H). run. rewrite H, H0. by destruct s.
Qed.

(** C4: on a refresh request, a missing token (absent or null) is answered
    401; a token that is not in the registry is answered 403; a token of the
    registry that the verifier rejects is answered 403.  None of the three
    changes the server state, and none depends on [generateAccessToken]. *)
Theorem new_token_rejections (P : platform) (scope : option (obj → string))
    (req_body : obj) (s : server) :
  let token := prop req_body "token" in
  let out := serve (signin_new_token_in P scope req_body) s in
  (is_nullish token = true → statusCode (fst out) = 401 ∧ snd out = s) ∧
  (is_nullish token = false → includes (refreshTokens s) token = false →
   statusCode (fst out) = 403 ∧ snd out = s) ∧
  (includes (refreshTokens s) token = true →
   jwt_verify_js P token (REFRESH_TOKEN_SECRET P) = None →
   statusCode (fst out) = 403 ∧ snd out = s).
Proof.
  cbv zeta. split; [| split].
  - intros H. by rewrite new_token_missing.
  - intros H H0. by rewrite new_token_unregistered.
  - intros H H0. by rewrite new_token_unverified.
Qed.

Lemma new_token_rejections_witness :
  statusCode (fst (serve (signin_new_token Demo.libs ∅) Demo.with_alice)) = 401 ∧
  statusCode (fst (serve (signin_new_token Demo.libs (Demo.token_body "refresh.7.7d"))
                         Demo.with_alice)) = 403 ∧
  statusCode (fst (serve (signin_new_token Demo.libs (Demo.token_body "forged"))
                         (set_refreshTokens (λ _, ["forged"]) Demo.with_alice))) = 403.
Proof.
  split; [| split].
  - refine (proj1 (proj1 (new_token_rejections Demo.libs None ∅ Demo.with_alice) _)).
    reflexivity.
  - refine (proj1 (proj1 (proj2 (new_token_rejections Demo.libs None
             (Demo.token_body "refresh.7.7d") Demo.with_alice)) _ _)); reflexivity.
  - refine (proj1 (proj2 (proj2 (new_token_rejections Demo.libs None
             (Demo.token_body "forged")
             (set_refreshTokens (λ _, ["forged"]) Demo.with_alice))) _ _)); reflexivity.
Defined.

Lemma filter_all (A : Type) (f : A → bool) (l : list A) :
  (∀ x, x ∈ l → f x = true) → List.filter f l = l.
Proof.
  induction l as [| x l IH]; intros H; [done |]. cbn.
  rewrite H by left. f_equal. apply IH. intros y Hy. apply H. by right.
Qed.

Lemma elem_of_List_filter (A : Type) (f : A → bool) (l : list A) (x : A) :
  x ∈ List.filter f l ↔ x ∈ l ∧ f x = true.
Proof. rewrite !list_elem_of_In. apply filter_In. Qed.

(** The predicate of the [filter] in logout keeps exactly the tokens that
    differ from the one of the request. *)
Lemma logout_keeps (t u : string) :
  negb (bool_decide (VStr u = VStr t)) = true ↔ u ≠ t.
Proof.
  rewrite negb_true_iff, bool_decide_eq_false. split; [congruence |].
  intros H [= ->]. done.
Qed.

Lemma logout_serve (req_body : obj) (s : server) :
  serve (logout req_body) s
  = (no_content,
     set_refreshTokens
       (List.filter (λ token, negb (bool_decide (VStr token = prop req_body "token")))) s).
Proof. reflexivity. Qed.

(** C7: logout answers 204 whether or not the token was registered; the
    token is no longer in the registry, every other token stays, and nothing
    changes when the token was absent; a refresh request that then presents
    the token is answered 403. *)
Theorem logout_revokes (P : platform) (scope : option (obj → string))
    (t : string) (req_body : obj) (s : server) :
  prop req_body "token" = VStr t →
  statusCode (fst (serve (logout req_body) s)) = 204 ∧
  (t ∉ refreshTokens (snd (serve (logout req_body) s))) ∧
  (∀ u, u ≠ t →
     (u ∈ refreshTokens (snd (serve (logout req_body) s)) ↔ u ∈ refreshTokens s)) ∧
  (t ∉ refreshTokens s → snd (serve (logout req_body) s) = s) ∧
  (∀ req_body', prop req_body' "token" = VStr t →
     statusCode (fst (serve (signin_new_token_in P scope req_body')
                            (snd (serve (logout req_body) s)))) = 403).
Proof.
  intros Ht. rewrite logout_serve, Ht. cbn [fst snd].
  unfold set_refreshTokens at 1 2. cbn [refreshTokens].
  assert (Hnot : t ∉ List.filter (λ token, negb (bool_decide (VStr token = VStr t)))
                       (refreshTokens s)).
  { rewrite elem_of_List_filter, logout_keeps. tauto. }
  split; [done |]. split; [exact Hnot |]. split; [| split].
  - intros u Hu. rewrite elem_of_List_filter, logout_keeps. tauto.
  - intros Habs. unfold set_refreshTokens.
    rewrite filter_all; [by destruct s |].
    intros u Hu. apply logout_keeps. congruence.
  - intros req_body' Ht'.
    rewrite new_token_unregistered; [done | by rewrite Ht' |].
    rewrite Ht'. cbn. by apply bool_decide_eq_false.
Qed.

Lemma logout_revokes_witness :
  statusCode (fst (serve (logout (Demo.token_body "refresh.7.7d")) Demo.two_sessions)) = 204 ∧
  refreshTokens (snd (serve (logout (Demo.token_body "refresh.7.7d")) Demo.two_sessions))
  = ["refresh.8.7d"] ∧
  statusCode (fst (serve (signin_new_token Demo.libs (Demo.token_body "refresh.7.7d"))
                         (snd (serve (logout (Demo.token_body "refresh.7.7d"))
                                     Demo.two_sessions)))) = 403.
Proof.
  pose proof (logout_revokes Demo.libs None "refresh.7.7d"
                (Demo.token_body "refresh.7.7d")
                Demo.two_sessions eq_refl) as (H204 & _ & _ & _ & H403).
  split; [exact H204 |]. split; [reflexivity |].
  exact (H403 (Demo.token_body "refresh.7.7d") eq_refl).
Defined.

(** What the refresh handler does with a registered token that verifies:
    the payload it signs holds [name], read from claims that carry
    [userId]. *)
Lemma new_token_verified (P : platform) scope (req_body : obj) (s : server) (user : obj) :
  includes (refreshTokens s) (prop req_body "token") = true →
  jwt_verify_js P (prop req_body "token") (REFRESH_TOKEN_SECRET P) = Some user →
  serve (signin_new_token_in P scope req_body) s
  = (match scope with
     | None => uncaught fresh_res
     | Some generateAccessToken =>
         json_response 200
           (JObj [("accessToken",
                   JVal (VStr (generateAccessToken {["name" := prop user "name"]})))])
     end, s).
Proof.
  intros H H0. unfold signin_new_token_in.
  rewrite (includes_not_nullish _ _ H). run. rewrite H, H0.
  destruct scope; by destruct s.
Qed.

(** Whatever [generateAccessToken] is bound to, the token it returns is a
    function of [{name: undefined}] for every refresh token whose claims are
    those the signin handler signs: it does not depend on the user. *)
Lemma new_token_ignores_user (P : platform) (g : obj → string)
    (body1 body2 : obj) (s1 s2 : server) (user1 user2 : obj) :
  includes (refreshTokens s1) (prop body1 "token") = true →
  includes (refreshTokens s2) (prop body2 "token") = true →
  jwt_verify_js P (prop body1 "token") (REFRESH_TOKEN_SECRET P) = Some user1 →
  jwt_verify_js P (prop body2 "token") (REFRESH_TOKEN_SECRET P) = Some user2 →
  user1 !! "name" = None → user2 !! "name" = None →
  fst (serve (signin_new_token_in P (Some g) body1) s1)
  = fst (serve (signin_new_token_in P (Some g) body2) s2).
Proof.
  intros H1 H2 V1 V2 N1 N2.
  rewrite (new_token_verified P _ _ _ _ H1 V1), (new_token_verified P _ _ _ _ H2 V2).
  cbn [fst]. by rewrite (prop_lookup_None _ _ N1), (prop_lookup_None _ _ N2).
Qed.

(** C2 (as the code behaves): user 7 signs in and presents the refresh token
    just issued, which is registered and verifies with the claim
    [userId = 7].  The handler calls [generateAccessToken], which the
    repository does not define, and the request ends in a 500; and were any
    definition supplied, the access token would be the one made from
    [{name: undefined}], the same as for user 8's refresh token. *)
Theorem new_token_after_signin :
  let s1 := snd (serve (users_signin Demo.libs
                          (Demo.signin_body "alice@example.com" "secret"))
                       Demo.with_alice) in
  let s2 := set_refreshTokens (λ ts, ts ++ ["refresh.8.7d"])%list s1 in
  refreshTokens s1 = ["refresh.7.7d"] ∧
  (λ user : obj, (prop user "userId", user !! "name"))
    <$> jwt_verify Demo.libs "refresh.7.7d" (REFRESH_TOKEN_SECRET Demo.libs)
  = Some (VNum 7, None) ∧
  statusCode (fst (serve (signin_new_token Demo.libs (Demo.token_body "refresh.7.7d"))
                         s1)) = 500 ∧
  ∀ g : obj → string,
    fst (serve (signin_new_token_in Demo.libs (Some g) (Demo.token_body "refresh.7.7d"))
               s2)
    = json_response 200 (JObj [("accessToken", JVal (VStr (g {["name" := VUndefined]})))]) ∧
    fst (serve (signin_new_token_in Demo.libs (Some g) (Demo.token_body "refresh.8.7d"))
               s2)
    = json_response 200 (JObj [("accessToken", JVal (VStr (g {["name" := VUndefined]})))]).
Proof.
  cbv zeta. split; [by vm_compute |]. split; [by vm_compute |]. split; [by vm_compute |].
  intros g. split.
  - by erewrite new_token_verified by by vm_compute.
  - by erewrite new_token_verified by by vm_compute.
Qed.

(** *** Signin *)

Lemma signin_unknown_identifier (P : platform) (req_body : obj) (s : server) :
  db_down s = false →
  select_user P (prop req_body "identifier") s = [] →
  serve (users_signin P req_body) s = (invalid_credentials_response, s).
Proof.
  intros Hup Hnone. unfold users_signin. run. rewrite Hup, Hnone. by destruct s.
Qed.

Lemma signin_wrong_password (P : platform) (req_body : obj) (s : server)
    (user : obj) (rest : list obj) (password hash : string) :
  db_down s = false →
  select_user P (prop req_body "identifier") s = user :: rest →
  prop req_body "password" = VStr password →
  prop user "password" = VStr hash →
  bcrypt_compare P password hash = false →
  serve (users_signin P req_body) s = (invalid_credentials_response, s).
Proof.
  intros Hup Hsome Hpw Hhash Hcmp. unfold users_signin, bcrypt_compare_js. run.
  rewrite Hup, Hsome, Hpw, Hhash. cbn. rewrite Hcmp. by destruct s.
Qed.

(** C5 (amended): a signin request whose identifier selects no user row and
    a signin request whose identifier selects a user and whose password is a
    string that [bcrypt.compare] answers false for receive the same
    response, status 401 with the body [{error: "Invalid credentials"}]. *)
Theorem signin_failures_identical (P : platform) (body1 body2 : obj) (s1 s2 : server)
    (user : obj) (rest : list obj) (password hash : string) :
  db_down s1 = false →
  db_down s2 = false →
  select_user P (prop body1 "identifier") s1 = [] →
  select_user P (prop body2 "identifier") s2 = user :: rest →
  prop body2 "password" = VStr password →
  prop user "password" = VStr hash →
  bcrypt_compare P password hash = false →
  fst (serve (users_signin P body1) s1) = fst (serve (users_signin P body2) s2) ∧
  statusCode (fst (serve (users_signin P body1) s1)) = 401 ∧
  sent (fst (serve (users_signin P body1) s1))
  = BJson (JObj [("error", JVal (VStr "Invalid credentials"))]).
Proof.
  intros Hup1 Hup2 Hnone Hsome Hpw Hhash Hcmp.
  rewrite (signin_unknown_identifier P body1 s1 Hup1 Hnone).
  by rewrite (signin_wrong_password P body2 s2 user rest password hash).
Qed.

Lemma signin_failures_identical_witness :
  fst (serve (users_signin Demo.libs (Demo.signin_body "bob@example.com" "secret"))
             Demo.with_alice)
  = fst (serve (users_signin Demo.libs (Demo.signin_body "alice@example.com" "guess"))
               Demo.with_alice).
Proof.
  refine (proj1 (signin_failures_identical Demo.libs
            (Demo.signin_body "bob@example.com" "secret")
            (Demo.signin_body "alice@example.com" "guess")
            Demo.with_alice Demo.with_alice Demo.alice [] "guess" (Demo.hash "secret" 10)
            _ _ _ _ _ _ _)); reflexivity.
Defined.

(** C5 (as the claim states it, refuted): two signin requests that carry no
    password, one for an identifier that selects no row and one for the
    identifier of a registered user.  For the second [bcrypt.compare] is
    given [undefined] and throws, and the handler's [catch] answers 500
    "Internal server error"; the first is answered 401 "Invalid
    credentials".  The two responses differ, so the response tells whether
    the identifier is registered. *)
Lemma signin_failures_differ :
  select_user Demo.libs (prop (Demo.identifier_body "bob@example.com") "identifier")
    Demo.with_alice = [] ∧
  select_user Demo.libs (prop (Demo.identifier_body "alice@example.com") "identifier")
    Demo.with_alice = [Demo.alice] ∧
  prop (Demo.identifier_body "alice@example.com") "password" = VUndefined ∧
  fst (serve (users_signin Demo.libs (Demo.identifier_body "bob@example.com"))
             Demo.with_alice)
  = invalid_credentials_response ∧
  fst (serve (users_signin Demo.libs (Demo.identifier_body "alice@example.com"))
             Demo.with_alice)
  = json_response 500 (error_body "Internal server error") ∧
  fst (serve (users_signin Demo.libs (Demo.identifier_body "bob@example.com"))
             Demo.with_alice)
  ≠ fst (serve (users_signin Demo.libs (Demo.identifier_body "alice@example.com"))
               Demo.with_alice).
Proof.
  assert (Hbob : fst (serve (users_signin Demo.libs
                               (Demo.identifier_body "bob@example.com")) Demo.with_alice)
                 = invalid_credentials_response) by (vm_compute; reflexivity).
  assert (Halice : fst (serve (users_signin Demo.libs
                                 (Demo.identifier_body "alice@example.com"))
                              Demo.with_alice)
                   = json_response 500 (error_body "Internal server error"))
    by (vm_compute; reflexivity).
  repeat apply conj; try (vm_compute; reflexivity); try assumption.
  rewrite Hbob, Halice. intros Heq.
  apply (f_equal statusCode) in Heq. discriminate Heq.
Qed.

(** *** Download *)

(** With the pool of the repository every awaited SELECT gives back a Query
    object, whose property [0] is undefined: the download handler takes its
    [!file] branch whatever the id and the table are. *)
Lemma file_download_callback (P : platform) (fileId : string) (s : server) :
  pool P = Callback → serve (file_download P fileId) s = (not_found, s).
Proof.
  intros Hpool. unfold file_download, select_file. run. rewrite Hpool. by destruct s.
Qed.

(** C9: a download request whose id selects no row of [files] is answered
    404, and the handler leaves the server as it found it: the filesystem
    log gains no path resolution, no unlink and no read. *)
Theorem download_missing_is_404 (P : platform) (fileId : string) (s : server) :
  db_down s = false →
  matching_files P fileId s = [] →
  statusCode (fst (serve (file_download P fileId) s)) = 404 ∧
  sent (fst (serve (file_download P fileId) s)) = BJson (error_body "File not found") ∧
  fs_log (snd (serve (file_download P fileId) s)) = fs_log s ∧
  snd (serve (file_download P fileId) s) = s.
Proof.
  intros Hup Hnone.
  assert (serve (file_download P fileId) s = (not_found, s)) as ->; [| done].
  destruct (pool P) eqn:Hpool; [by apply file_download_callback |].
  unfold file_download, select_file. run. rewrite Hpool, Hup, Hnone. by destruct s.
Qed.

Lemma download_missing_is_404_witness :
  statusCode (fst (serve (file_download Demo.libs "9") Demo.with_stored_row)) = 404 ∧
  fs_log (snd (serve (file_download Demo.libs "9") Demo.with_stored_row)) = [].
Proof.
  destruct (download_missing_is_404 Demo.libs "9" Demo.with_stored_row eq_refl eq_refl)
    as (H404 & _ & Hlog & _).
  split; [exact H404 | exact Hlog].
Defined.

Lemma uploads_path_string (P : platform) (name : string) (c : ctx) :
  ∃ p, uploads_path P (VStr name) c
       = (Done p, {| srv := log_fs (PathJoin p) (srv c); res := res c |}).
Proof. by eexists. Qed.

(** C3 (as the code behaves): the row with id 1 stores the filename
    [1690000000000-7.pdf] and the mime type [application/pdf], and the id 1
    selects it.  The handler awaits [pool.query] on the callback pool, reads
    [result[0]] of the Query object it gets back, finds it undefined and
    answers 404 "File not found": the response carries no
    Content-Disposition, its Content-Type is that of the JSON error body,
    and no file is sent. *)
Theorem download_stored_row_is_404 :
  pool Demo.libs = Callback ∧
  matching_files Demo.libs "1" Demo.with_stored_row = [Demo.stored_row] ∧
  prop Demo.stored_row "filename" = VStr "1690000000000-7.pdf" ∧
  prop Demo.stored_row "mime_type" = VStr "application/pdf" ∧
  statusCode (fst (serve (file_download Demo.libs "1") Demo.with_stored_row)) = 404 ∧
  sent (fst (serve (file_download Demo.libs "1") Demo.with_stored_row))
  = BJson (error_body "File not found") ∧
  headers (fst (serve (file_download Demo.libs "1") Demo.with_stored_row))
    !! "Content-Disposition" = None ∧
  headers (fst (serve (file_download Demo.libs "1") Demo.with_stored_row))
    !! content_type = Some json_type ∧
  fs_log (snd (serve (file_download Demo.libs "1") Demo.with_stored_row)) = [].
Proof. repeat apply conj; vm_compute; reflexivity. Qed.

(** *** Update *)

Lemma log_fs_files (e : fs_event) (s : server) : files (log_fs e s) = files s.
Proof. reflexivity. Qed.

Lemma log_fs_db_down (e : fs_event) (s : server) : db_down (log_fs e s) = db_down s.
Proof. reflexivity. Qed.

Lemma log_fs_matching (P : platform) (fileId : string) (e : fs_event) (s : server) :
  matching_files P fileId (log_fs e s) = matching_files P fileId s.
Proof. reflexivity. Qed.

(** With the pool of the repository the update handler, too, finds
    [result[0]] undefined: after the storage stage has written the
    attachment, the answer is 404 and no statement changes a row. *)
Lemma file_update_callback (P : platform) (fileId : string) (req_file : option upload)
    (s : server) :
  pool P = Callback →
  serve (file_update P fileId req_file) s = (not_found, stored P req_file s).
Proof.
  intros Hpool. unfold file_update, file_update_handler, select_file, multer_store.
  destruct req_file; run; rewrite Hpool; by destruct s.
Qed.

(** The rows after an update request: untouched, or with the filename of
    the rows the id selects replaced by the name of the new attachment. *)
Lemma file_update_files (P : platform) (fileId : string) (req_file : option upload)
    (s : server) :
  files (snd (serve (file_update P fileId req_file) s)) = files s ∨
  ∃ f, req_file = Some f ∧
       files (snd (serve (file_update P fileId req_file) s))
       = files (update_filename P (filename f) fileId s).
Proof.
  destruct (pool P) eqn:Hpool.
  { left. rewrite file_update_callback by done. by destruct req_file. }
  unfold file_update, file_update_handler, select_file, multer_store.
  destruct req_file as [f |]; run; rewrite Hpool, ?log_fs_db_down, ?log_fs_matching.
  - destruct (db_down s) eqn:Hup; [by left |].
    destruct (matching_files P fileId s) as [| file rest]; [by left |].
    cbn [first_row].
    destruct (prop file "filename") as [| | | | name] eqn:Hname; try by left.
    edestruct (uploads_path_string P name) as [p ->]. cbn. rewrite ?Hpool, ?Hup.
    right. by exists f.
  - left. destruct (db_down s) eqn:Hup; [done |].
    destruct (matching_files P fileId s) as [| file rest]; [done |].
    cbn [first_row]. by destruct (prop file "filename").
Qed.

(** Frame of the update: whatever the request and its outcome, the table
    keeps its rows in place, and every column of every row other than
    [filename] keeps its value. *)
Lemma file_update_frame (P : platform) (fileId : string) (req_file : option upload)
    (s : server) (i : nat) (row : obj) :
  files s !! i = Some row →
  ∃ row', files (snd (serve (file_update P fileId req_file) s)) !! i = Some row' ∧
          ∀ column, column ≠ "filename" → row' !! column = row !! column.
Proof.
  intros Hrow.
  destruct (file_update_files P fileId req_file s) as [-> | (f & _ & ->)]; [eauto |].
  unfold update_filename, set_files. cbn [files].
  rewrite list_lookup_fmap, Hrow. cbn.
  eexists. split; [done |]. intros column Hne.
  destruct (sql_eq P _ _); [by rewrite lookup_insert_ne | done].
Qed.

(** C8 (as the code behaves): the row with id 1 stores a filename, and the
    id 1 selects it.  An update of id 1 with a new attachment, stored as
    [1700000000000-42.pdf], is answered 404 "File not found": the awaited
    SELECT gives back a Query object whose property [0] is undefined, so the
    UPDATE is never sent and the row keeps its old filename, while the new
    blob has been written and the old one is not unlinked. *)
Theorem update_stored_row_is_404 :
  pool Demo.libs = Callback ∧
  matching_files Demo.libs "1" Demo.with_stored_row = [Demo.stored_row] ∧
  prop Demo.stored_row "filename" = VStr "1690000000000-7.pdf" ∧
  filename Demo.report_v2 = "1700000000000-42.pdf" ∧
  fst (serve (file_update Demo.libs "1" (Some Demo.report_v2)) Demo.with_stored_row)
  = not_found ∧
  files (snd (serve (file_update Demo.libs "1" (Some Demo.report_v2)) Demo.with_stored_row))
  = [Demo.stored_row] ∧
  fs_log (snd (serve (file_update Demo.libs "1" (Some Demo.report_v2)) Demo.with_stored_row))
  = [WriteFile "/app/uploads/1700000000000-42.pdf"].
Proof. repeat apply conj; vm_compute; reflexivity. Qed.

(** *** List *)



(** C6 (as the code behaves): over a table of 25 rows, the list request with
    [list_size=10] and [page=3] is answered 500 "Error retrieving files from
    database", not five rows and three pages: the handler awaits
    [pool.query] on the callback pool and reads [total] of the undefined
    [totalCountResult[0]]. *)
Theorem file_list_page_3_fails :
  pool Demo.libs = Callback ∧
  length (files Demo.with_25_files) = 25%nat ∧
  list_pageSize (QStr "10") = Num 10 ∧
  list_page (QStr "3") = Num 3 ∧
  serve (file_list Demo.libs (QStr "10") (QStr "3")) Demo.with_25_files
  = (list_failure, Demo.with_25_files).
Proof. repeat apply conj; vm_compute; reflexivity. Qed.







Example parseInt_examples :
  parseInt (QStr "25") = Num 25 ∧ parseInt (QStr " 12px") = Num 12 ∧
  parseInt (QStr "-3") = Num (-3) ∧ parseInt (QStr "0x1f") = Num 31 ∧
  parseInt (QStr "") = NaN ∧ parseInt (QStr "0x") = NaN ∧ parseInt (QStr "0xg") = NaN ∧
  parseInt (QArr ["5"; "6"]) = Num 5 ∧ parseInt QObj = NaN ∧ parseInt QAbsent = NaN ∧
  parseInt (QStr "9007199254740993") = Num 9007199254740992.
Proof. by vm_compute. Qed.


(** The divisor of the [totalPages] computation is never zero and never
    NaN, whatever the query holds. *)
Lemma list_pageSize_nonzero (list_size : qvalue) :
  list_pageSize list_size ≠ Num 0 ∧ list_pageSize list_size ≠ NaN.
Proof.
  unfold list_pageSize, or_default. destruct (parseInt list_size) as [| k |]; try done.
  destruct (Z.eqb_spec k 0); split; try done. by intros [= ?].
Qed.




(** ** Further properties of the handlers *)

(** *** The registration schema *)

Lemma prop_is_string (o : obj) (k s : string) : prop o k = VStr s → o !! k = Some (VStr s).
Proof. unfold prop. destruct (o !! k); cbn; congruence. Qed.

Lemma check_key_passes (P : platform) (key : string) (rs : list rule) (v : value) :
  check_key P key rs v = None →
  ∃ s, v = VStr s ∧ s ≠ "" ∧ check_rules P key s rs = None.
Proof.
  destruct v as [| | | | s]; try done.
  destruct s as [| c s]; [done |]. intros H. by exists (String c s).
Qed.

(** X1: on an object all of whose keys the schema knows, the registration
    schema reports no error exactly when the five fields are non-empty
    strings, the email is well formed, the phone number has 12 characters
    and the password at least 5. *)
Theorem registrationSchema_accepts_iff (P : platform) (o : obj) :
  known_keys o = true →
  validate P registrationSchema o = None ↔ valid_shape P o.
Proof.
  intros _. split; [| apply validate_valid_shape].
  unfold registrationSchema. cbn [validate]. intros H.
  destruct (check_key P "firstName" [] (prop o "firstName")) eqn:Hf; [done |].
  destruct (check_key P "lastName" [] (prop o "lastName")) eqn:Hl; [done |].
  destruct (check_key P "email" [Email] (prop o "email")) eqn:He; [done |].
  destruct (check_key P "phoneNumber" [Length 12] (prop o "phoneNumber")) eqn:Hph; [done |].
  destruct (check_key P "password" [Min 5] (prop o "password")) eqn:Hpw; [done |].
  apply check_key_passes in Hf as (f & Hf & Hf' & _).
  apply check_key_passes in Hl as (l & Hl & Hl' & _).
  apply check_key_passes in He as (e & He & He' & Hev).
  apply check_key_passes in Hph as (ph & Hph & _ & Hphv).
  apply check_key_passes in Hpw as (pw & Hpw & _ & Hpwv).
  exists f, l, e, ph, pw.
  cbn [check_rules check_rule] in Hev, Hphv, Hpwv.
  destruct (valid_email P e) eqn:Hemail; [| done].
  destruct (Nat.eqb_spec (String.length ph) 12); [| done].
  destruct (Nat.leb_spec 5 (String.length pw)); [| done].
  repeat split; auto using prop_is_string.
Qed.

Lemma registrationSchema_accepts_iff_witness :
  known_keys Demo.signup_body = true ∧ valid_shape Demo.libs Demo.signup_body.
Proof.
  split; [vm_compute; reflexivity |].
  refine (proj1 (registrationSchema_accepts_iff Demo.libs Demo.signup_body _) _);
    vm_compute; reflexivity.
Defined.

(** *** Signin *)

(** X2: a signin whose identifier selects a user and whose password
    [bcrypt.compare] accepts is answered 200 with an access token and a
    refresh token, both signed over [{userId: user.id}] of the first selected
    row, with the access secret for 10 minutes and the refresh secret for 7
    days; the refresh token is appended to the registry and nothing else
    changes. *)
Theorem users_signin_success (P : platform) (req_body : obj) (s : server)
    (user : obj) (rest : list obj) (password hash : string) :
  db_down s = false →
  select_user P (prop req_body "identifier") s = user :: rest →
  prop req_body "password" = VStr password →
  prop user "password" = VStr hash →
  bcrypt_compare P password hash = true →
  serve (users_signin P req_body) s
  = (json_response 200
       (JObj [("accessToken",
               JVal (VStr (jwt_sign P {["userId" := prop user "id"]}
                             (ACCESS_SECRET_TOKEN P) "10m")));
              ("refreshToken",
               JVal (VStr (jwt_sign P {["userId" := prop user "id"]}
                             (REFRESH_TOKEN_SECRET P) "7d")))]),
     set_refreshTokens
       (λ ts, ts ++ [jwt_sign P {["userId" := prop user "id"]}
                       (REFRESH_TOKEN_SECRET P) "7d"])%list s).
Proof.
  intros Hup Hsome Hpw Hhash Hcmp. unfold users_signin, bcrypt_compare_js. run.
  rewrite Hup, Hsome, Hpw, Hhash. cbn. rewrite Hcmp. reflexivity.
Qed.

Lemma users_signin_success_witness :
  sent (fst (serve (users_signin Demo.libs (Demo.signin_body "+37499123456" "secret"))
                   Demo.with_alice))
  = BJson (JObj [("accessToken", JVal (VStr "access.7.10m"));
                 ("refreshToken", JVal (VStr "refresh.7.7d"))]) ∧
  refreshTokens (snd (serve (users_signin Demo.libs
                               (Demo.signin_body "+37499123456" "secret"))
                            Demo.with_alice)) = ["refresh.7.7d"].
Proof.
  rewrite (users_signin_success Demo.libs (Demo.signin_body "+37499123456" "secret")
             Demo.with_alice Demo.alice [] "secret" (Demo.hash "secret" 10)
             eq_refl eq_refl eq_refl eq_refl eq_refl).
  split; reflexivity.
Defined.

(** X3: whatever the request, signin leaves both tables and the filesystem
    alone and revokes nothing: the registry after it is the registry before
    it, followed by at most one token. *)
Theorem users_signin_preserves (P : platform) (req_body : obj) (s : server) :
  users (snd (serve (users_signin P req_body) s)) = users s ∧
  files (snd (serve (users_signin P req_body) s)) = files s ∧
  fs_log (snd (serve (users_signin P req_body) s)) = fs_log s ∧
  ∃ issued : list string,
    refreshTokens (snd (serve (users_signin P req_body) s))
    = (refreshTokens s ++ issued)%list ∧ (length issued ≤ 1)%nat.
Proof.
  assert (Hsame : ∀ s' : server, s' = s →
    users s' = users s ∧ files s' = files s ∧ fs_log s' = fs_log s ∧
    ∃ issued : list string,
      refreshTokens s' = (refreshTokens s ++ issued)%list ∧ (length issued ≤ 1)%nat).
  { intros s' ->. repeat split. exists []. split; [by rewrite app_nil_r | cbn; lia]. }
  unfold users_signin, bcrypt_compare_js. run.
  destruct (db_down s); [by apply Hsame |].
  destruct (select_user P (prop req_body "identifier") s) as [| user rest];
    [by apply Hsame |].
  destruct (prop req_body "password") as [| | | | password]; try by apply Hsame.
  destruct (prop user "password") as [| | | | hash]; try by apply Hsame.
  cbn. destruct (bcrypt_compare P password hash); cbn; [| by apply Hsame].
  repeat split. eexists [_]. split; [reflexivity | cbn; lia].
Qed.

(** X4: a signin request that carries no password is answered 401 when its
    identifier selects no user, and 500 when it selects one
    ([bcrypt.compare] throws on the missing argument): the two cases are
    told apart.  Neither changes the server. *)
Theorem users_signin_missing_password (P : platform) (req_body : obj) (s : server) :
  db_down s = false →
  req_body !! "password" = None →
  (select_user P (prop req_body "identifier") s = [] →
   serve (users_signin P req_body) s = (invalid_credentials_response, s)) ∧
  (∀ user rest, select_user P (prop req_body "identifier") s = user :: rest →
   serve (users_signin P req_body) s
   = (json_response 500 (error_body "Internal server error"), s)).
Proof.
  intros Hup Hpw. split.
  - by apply signin_unknown_identifier.
  - intros user rest Hsome. unfold users_signin, bcrypt_compare_js. run.
    rewrite Hup, Hsome, (prop_lookup_None _ _ Hpw). by destruct s.
Qed.

Lemma users_signin_missing_password_witness :
  statusCode (fst (serve (users_signin Demo.libs (Demo.identifier_body "bob@example.com"))
                         Demo.with_alice)) = 401 ∧
  statusCode (fst (serve (users_signin Demo.libs (Demo.identifier_body "alice@example.com"))
                         Demo.with_alice)) = 500.
Proof.
  split.
  - by rewrite (proj1 (users_signin_missing_password Demo.libs
                         (Demo.identifier_body "bob@example.com") Demo.with_alice
                         eq_refl eq_refl) eq_refl).
  - by rewrite (proj2 (users_signin_missing_password Demo.libs
                         (Demo.identifier_body "alice@example.com") Demo.with_alice
                         eq_refl eq_refl) Demo.alice [] eq_refl).
Defined.

(** *** Token refresh and logout *)

(** X5: the refresh handler never changes the server: the refresh token it
    is given is neither consumed nor replaced, and the tables and the
    filesystem are not touched, whatever the request and its outcome. *)
Theorem new_token_changes_nothing (P : platform) (scope : option (obj → string))
    (req_body : obj) (s : server) :
  snd (serve (signin_new_token_in P scope req_body) s) = s.
Proof.
  destruct (is_nullish (prop req_body "token")) eqn:Hnull.
  { by rewrite new_token_missing. }
  destruct (includes (refreshTokens s) (prop req_body "token")) eqn:Hin.
  2: { by rewrite new_token_unregistered. }
  destruct (jwt_verify_js P (prop req_body "token") (REFRESH_TOKEN_SECRET P)) eqn:Hv.
  - by erewrite new_token_verified.
  - by rewrite new_token_unverified.
Qed.

(** X6: logout touches nothing but the registry, and a logout request that
    carries no token leaves the registry as it is; it is answered 204 all
    the same. *)
Theorem logout_frame (req_body : obj) (s : server) :
  fst (serve (logout req_body) s) = no_content ∧
  users (snd (serve (logout req_body) s)) = users s ∧
  files (snd (serve (logout req_body) s)) = files s ∧
  fs_log (snd (serve (logout req_body) s)) = fs_log s ∧
  (req_body !! "token" = None → snd (serve (logout req_body) s) = s).
Proof.
  rewrite logout_serve. cbn [fst snd]. repeat split.
  intros Hnone. rewrite (prop_lookup_None _ _ Hnone). unfold set_refreshTokens.
  rewrite filter_all; [by destruct s |].
  intros t _. by apply negb_true_iff, bool_decide_eq_false.
Qed.

Lemma logout_frame_witness :
  snd (serve (logout ∅) Demo.two_sessions) = Demo.two_sessions.
Proof.
  exact (proj2 (proj2 (proj2 (proj2 (logout_frame ∅ Demo.two_sessions)))) eq_refl).
Defined.

(** *** The guard *)

Lemma split_on_no_sep (sep : ascii) (s : string) :
  all_chars (λ c, negb (Ascii.eqb c sep)) s = true → split_on sep s = [s].
Proof.
  induction s as [| c s IH]; [done |]. cbn [all_chars split_on].
  intros [Hc Hs]%andb_true_iff.
  apply negb_true_iff in Hc. by rewrite Hc, (IH Hs).
Qed.

Lemma split_on_app (sep : ascii) (a b : string) :
  all_chars (λ c, negb (Ascii.eqb c sep)) a = true →
  split_on sep (a +:+ String sep b) = a :: split_on sep b.
Proof.
  induction a as [| c a IH].
  - intros _. change ("" +:+ String sep b) with (String sep b).
    cbn [split_on]. by rewrite Ascii.eqb_refl.
  - cbn [all_chars]. intros [Hc Ha]%andb_true_iff. apply negb_true_iff in Hc.
    change (String c a +:+ String sep b) with (String c (a +:+ String sep b)).
    cbn [split_on]. by rewrite Hc, (IH Ha).
Qed.

(** X7: on a header made of a scheme word, a space and a token, the guard
    verifies the token with the access secret: when it verifies, the request
    goes on with the token's claims and no response is sent; when it does
    not, the answer is 403.  The scheme word is not looked at, and the
    server is not changed. *)
Theorem authenticateToken_token (P : platform) (scheme token : string) (s : server) :
  no_space scheme = true →
  no_space token = true →
  token ≠ "" →
  run_guard (authenticateToken P (Some (scheme +:+ " " +:+ token))) s
  = match jwt_verify P token (ACCESS_SECRET_TOKEN P) with
    | Some user => (Some user, fresh_res, s)
    | None => (None, forbidden, s)
    end.
Proof.
  intros Hscheme Htoken Hne. unfold authenticateToken, run_guard.
  assert (falsy (VStr (scheme +:+ " " +:+ token)) = false) as -> by by destruct scheme.
  change (scheme +:+ " " +:+ token) with (scheme +:+ String " " token).
  rewrite split_on_app by done. rewrite (split_on_no_sep _ _ Htoken). cbn [lookup list_lookup].
  assert (falsy (VStr token) = false) as -> by by destruct token.
  cbn [jwt_verify_js]. destruct (jwt_verify P token (ACCESS_SECRET_TOKEN P)); run; by destruct s.
Qed.

Lemma authenticateToken_token_witness :
  fst (fst (run_guard (authenticateToken Demo.libs_access (Some "Bearer access.7.10m"))
                      Demo.with_alice))
  = fst (fst (run_guard (authenticateToken Demo.libs_access (Some "Basic access.7.10m"))
                        Demo.with_alice)) ∧
  run_guard (authenticateToken Demo.libs_access (Some "Bearer forged")) Demo.with_alice
  = (None, forbidden, Demo.with_alice).
Proof.
  pose proof (authenticateToken_token Demo.libs_access "Bearer" "access.7.10m"
                Demo.with_alice eq_refl eq_refl ltac:(discriminate)) as Hbearer.
  pose proof (authenticateToken_token Demo.libs_access "Basic" "access.7.10m"
                Demo.with_alice eq_refl eq_refl ltac:(discriminate)) as Hbasic.
  pose proof (authenticateToken_token Demo.libs_access "Bearer" "forged"
                Demo.with_alice eq_refl eq_refl ltac:(discriminate)) as Hforged.
  change ("Bearer" +:+ " " +:+ "access.7.10m") with "Bearer access.7.10m" in Hbearer.
  change ("Basic" +:+ " " +:+ "access.7.10m") with "Basic access.7.10m" in Hbasic.
  change ("Bearer" +:+ " " +:+ "forged") with "Bearer forged" in Hforged.
  split; [by rewrite Hbearer, Hbasic | exact Hforged].
Defined.

(** X8: the guard answers 401, verifies nothing and lets nothing through
    when the header is absent, when it holds no space (the empty header, a
    bare token), and when the space is followed by nothing or by another
    space. *)
Theorem authenticateToken_unauthorized (P : platform) (s : server) :
  run_guard (authenticateToken P None) s = (None, unauthorized, s) ∧
  (∀ h, no_space h = true →
        run_guard (authenticateToken P (Some h)) s = (None, unauthorized, s)) ∧
  (∀ scheme, no_space scheme = true →
        run_guard (authenticateToken P (Some (scheme +:+ " "))) s
        = (None, unauthorized, s)) ∧
  (∀ scheme rest, no_space scheme = true →
        run_guard (authenticateToken P (Some (scheme +:+ " " +:+ " " +:+ rest))) s
        = (None, unauthorized, s)).
Proof.
  unfold authenticateToken, run_guard. split; [| split; [| split]].
  - run. by destruct s.
  - intros h Hh. destruct h as [| c h]; [run; by destruct s |].
    cbn [falsy]. rewrite (split_on_no_sep _ _ Hh). run. by destruct s.
  - intros scheme Hs.
    assert (falsy (VStr (scheme +:+ " ")) = false) as -> by by destruct scheme.
    change (scheme +:+ " ") with (scheme +:+ String " " EmptyString).
    rewrite split_on_app by done. run. by destruct s.
  - intros scheme rest Hs.
    assert (falsy (VStr (scheme +:+ " " +:+ " " +:+ rest)) = false) as ->
      by by destruct scheme.
    change (scheme +:+ " " +:+ " " +:+ rest) with (scheme +:+ String " " (String " " rest)).
    rewrite split_on_app by done. cbn [split_on]. rewrite Ascii.eqb_refl. run.
    by destruct s.
Qed.

Lemma authenticateToken_unauthorized_witness :
  run_guard (authenticateToken Demo.libs_access (Some "access.7.10m")) Demo.with_alice
  = (None, unauthorized, Demo.with_alice) ∧
  run_guard (authenticateToken Demo.libs_access (Some "Bearer  access.7.10m")) Demo.with_alice
  = (None, unauthorized, Demo.with_alice).
Proof.
  destruct (authenticateToken_unauthorized Demo.libs_access Demo.with_alice)
    as (_ & Hbare & _ & Hdouble).
  split.
  - exact (Hbare "access.7.10m" eq_refl).
  - exact (Hdouble "Bearer" "access.7.10m" eq_refl).
Defined.

(** *** Get by id and delete *)

Lemma file_delete_callback (P : platform) (fileId : string) (s : server) :
  pool P = Callback → serve (file_delete P fileId) s = (not_found, s).
Proof.
  intros Hpool. unfold file_delete, select_file. run. rewrite Hpool. by destruct s.
Qed.

(** X9: with the pool of the repository, GET /file/:id is answered 404 "File
    not found" whatever the id, the rows of the table and the state of the
    store, and the server is left as it was: the handler reads [result[0]]
    of the Query object the awaited call gives back, which is undefined. *)
Theorem file_get_always_404 (P : platform) (fileId : string) (s : server) :
  pool P = Callback → serve (file_get P fileId) s = (not_found, s).
Proof.
  intros Hpool. unfold file_get, select_file. run. rewrite Hpool. by destruct s.
Qed.

Lemma file_get_always_404_witness :
  matching_files Demo.libs "1" Demo.with_two_rows = [Demo.stored_row] ∧
  serve (file_get Demo.libs "1") Demo.with_two_rows = (not_found, Demo.with_two_rows).
Proof.
  split; [vm_compute; reflexivity |].
  exact (file_get_always_404 Demo.libs "1" Demo.with_two_rows eq_refl).
Defined.

(** X10: with the pool of the repository, DELETE /file/delete/:id is
    answered 404 whatever the id and the rows of the table: no row leaves
    the table, no path is resolved and no blob is unlinked. *)
Theorem file_delete_always_404 (P : platform) (fileId : string) (s : server) :
  pool P = Callback →
  fst (serve (file_delete P fileId) s) = not_found ∧
  files (snd (serve (file_delete P fileId) s)) = files s ∧
  fs_log (snd (serve (file_delete P fileId) s)) = fs_log s ∧
  snd (serve (file_delete P fileId) s) = s.
Proof. intros Hpool. by rewrite file_delete_callback. Qed.

Lemma file_delete_always_404_witness :
  matching_files Demo.libs "1" Demo.with_two_rows = [Demo.stored_row] ∧
  fst (serve (file_delete Demo.libs "1") Demo.with_two_rows) = not_found ∧
  files (snd (serve (file_delete Demo.libs "1") Demo.with_two_rows))
  = [Demo.stored_row; Demo.unstored_row].
Proof.
  destruct (file_delete_always_404 Demo.libs "1" Demo.with_two_rows eq_refl)
    as (H404 & Hfiles & _).
  split; [vm_compute; reflexivity |]. split; [exact H404 | exact Hfiles].
Defined.

(** X12: a delete request whose id selects no row is answered 404 and
    leaves the server unchanged, whatever the pool; with the pool of the
    repository a delete request made while the store is down is answered
    404 as well, the failure of the statement never reaching the handler. *)
Theorem file_delete_nothing (P : platform) (fileId : string) (s : server) :
  (db_down s = false → matching_files P fileId s = [] →
   serve (file_delete P fileId) s = (not_found, s)) ∧
  (pool P = Callback → db_down s = true →
   serve (file_delete P fileId) s = (not_found, s)).
Proof.
  split.
  - intros Hup Hnone. destruct (pool P) eqn:Hpool; [by apply file_delete_callback |].
    unfold file_delete, select_file. run. rewrite Hpool, Hup, Hnone. by destruct s.
  - intros Hpool _. by apply file_delete_callback.
Qed.

Lemma file_delete_nothing_witness :
  serve (file_delete Demo.libs "7") Demo.with_two_rows = (not_found, Demo.with_two_rows) ∧
  serve (file_delete Demo.libs_promisified "7") Demo.with_two_rows
  = (not_found, Demo.with_two_rows).
Proof.
  split.
  - exact (proj1 (file_delete_nothing Demo.libs "7" Demo.with_two_rows) eq_refl eq_refl).
  - exact (proj1 (file_delete_nothing Demo.libs_promisified "7" Demo.with_two_rows)
             eq_refl eq_refl).
Defined.

(** *** Upload *)

Lemma string_app_cons (c : ascii) (a b : string) : String c a +:+ b = String c (a +:+ b).
Proof. reflexivity. Qed.

Lemma string_app_nil_l (b : string) : "" +:+ b = b.
Proof. reflexivity. Qed.

Lemma string_app_nil_r (s : string) : s +:+ "" = s.
Proof. induction s as [| c s IH]; [done |]. by rewrite string_app_cons, IH. Qed.

Lemma string_length_app (a b : string) :
  String.length (a +:+ b) = (String.length a + String.length b)%nat.
Proof.
  induction a as [| c a IH]; [done |]. rewrite string_app_cons. cbn [String.length].
  by rewrite IH.
Qed.

Lemma substring_prefix (x e : string) : substring 0 (String.length x) (x +:+ e) = x.
Proof.
  induction x as [| c x IH].
  - rewrite string_app_nil_l. by destruct e.
  - rewrite string_app_cons. cbn [String.length substring]. by rewrite IH.
Qed.

Lemma substring_whole (e : string) : substring 0 (String.length e) e = e.
Proof. induction e as [| c e IH]; [done |]. cbn [String.length substring]. by rewrite IH. Qed.

Lemma substring_suffix (x e : string) :
  substring (String.length x) (String.length e) (x +:+ e) = e.
Proof.
  induction x as [| c x IH].
  - rewrite string_app_nil_l. apply substring_whole.
  - rewrite string_app_cons. cbn [String.length substring]. apply IH.
Qed.

Lemma from_last_dot_suffix (s e : string) :
  from_last_dot s = Some e → ∃ pre, s = pre +:+ e.
Proof.
  revert e. induction s as [| c s IH]; [done |]. cbn [from_last_dot]. intros e.
  destruct (from_last_dot s) as [e' |].
  - intros [= <-]. destruct (IH e' eq_refl) as [pre ->]. by exists (String c pre).
  - destruct (Ascii.eqb c "."); [| done]. intros [= <-]. by exists "".
Qed.

(** What [path.basename(p, ext)] cuts off. *)
Lemma basename_strip (p x e : string) :
  last_segment p = x +:+ e → x ≠ "" → basename p e = x.
Proof.
  intros Hb Hx. unfold basename. rewrite Hb, string_length_app.
  assert (String.length x ≠ 0)%nat by by destruct x.
  replace (String.length x + String.length e - String.length e)%nat
    with (String.length x) by lia.
  rewrite substring_suffix, String.eqb_refl, substring_prefix.
  destruct (Nat.ltb_spec (String.length e) (String.length x + String.length e)); [done | lia].
Qed.

(** The name and the extension the upload handler stores put the file name
    back together. *)
Lemma basename_extname (p : string) :
  basename p (extname p) +:+ extname p = last_segment p.
Proof.
  destruct (last_segment p) as [| c rest] eqn:Hb.
  { unfold extname, basename. by rewrite Hb. }
  assert (∃ x, x ≠ "" ∧ last_segment p = x +:+ extname p) as (x & Hx & Hsplit).
  { unfold extname. rewrite Hb.
    destruct (String.eqb (String c rest) "..").
    { exists (String c rest). by rewrite string_app_nil_r. }
    destruct (from_last_dot rest) as [e |] eqn:He; cbn [default].
    - apply from_last_dot_suffix in He as [pre ->]. by exists (String c pre).
    - exists (String c rest). by rewrite string_app_nil_r. }
  rewrite (basename_strip p x (extname p) Hsplit Hx). by rewrite <- Hsplit, Hb.
Qed.

(** X13: an upload that the store accepts is answered 200 and appends one
    row to the table: its id is the table's next AUTO_INCREMENT value, its
    name and extension put together give the file name of the original (the
    part after the last slash), its mime type and size are those of the
    attachment, and its filename is NULL: the name under which the blob was
    written is not recorded.  Rows already there are untouched. *)
Theorem file_upload_row (f : upload) (s : server) :
  db_down s = false →
  fst (serve (file_upload (Some f)) s)
  = json_response 200 (message_body "File uploaded and data recorded successfully") ∧
  ∃ row : obj,
    files (snd (serve (file_upload (Some f)) s)) = (files s ++ [row])%list ∧
    files_auto (snd (serve (file_upload (Some f)) s)) = files_auto s + 1 ∧
    fs_log (snd (serve (file_upload (Some f)) s))
    = (fs_log s ++ [WriteFile ("uploads/" +:+ filename f)])%list ∧
    row !! "id" = Some (VNum (files_auto s)) ∧
    row !! "mime_type" = Some (VStr (mimetype f)) ∧
    row !! "size" = Some (VNum (size f)) ∧
    row !! "filename" = Some VNull ∧
    ∃ name extension : string,
      row !! "name" = Some (VStr name) ∧
      row !! "extension" = Some (VStr extension) ∧
      name +:+ extension = last_segment (originalname f).
Proof.
  intros Hup. unfold file_upload. run. rewrite log_fs_db_down, Hup. split; [done |].
  eexists. split; [reflexivity |]. split; [done |]. split; [done |].
  split; [by simplify_map_eq |]. split; [by simplify_map_eq |].
  split; [by simplify_map_eq |]. split; [by simplify_map_eq |].
  eexists _, _. split; [by simplify_map_eq |]. split; [by simplify_map_eq |].
  apply basename_extname.
Qed.

Lemma file_upload_row_witness :
  ∃ row : obj,
    files (snd (serve (file_upload (Some Demo.report_v2)) Demo.with_stored_row))
    = [Demo.stored_row; row] ∧
    row !! "id" = Some (VNum 2) ∧ row !! "filename" = Some VNull.
Proof.
  destruct (file_upload_row Demo.report_v2 Demo.with_stored_row eq_refl)
    as (_ & row & Hfiles & _ & _ & Hid & _ & _ & Hname & _).
  exists row. split; [exact Hfiles |]. split; [exact Hid | exact Hname].
Defined.

(** X14: an upload request without an attachment makes the handler throw
    outside any [try]: the request ends in Express's 500 and the server is
    unchanged.  With an attachment and the store down, the answer is the
    handler's 500, no row is inserted, and the blob multer wrote stays. *)
Theorem file_upload_failures (s : server) :
  serve (file_upload None) s = (uncaught fresh_res, s) ∧
  ∀ f, db_down s = true →
    serve (file_upload (Some f)) s
    = (json_response 500 (error_body "Error inserting data into database"),
       log_fs (WriteFile ("uploads/" +:+ filename f)) s).
Proof.
  split.
  - unfold file_upload. run. by destruct s.
  - intros f Hdown. unfold file_upload. run. by rewrite log_fs_db_down, Hdown.
Qed.

Lemma file_upload_failures_witness :
  files (snd (serve (file_upload (Some Demo.report))
                    (mkServer [] [] 1 1 true [] []))) = [] ∧
  fs_log (snd (serve (file_upload (Some Demo.report))
                     (mkServer [] [] 1 1 true [] []))) = [WriteFile "uploads/3f2a9c"].
Proof.
  rewrite (proj2 (file_upload_failures (mkServer [] [] 1 1 true [] [])) Demo.report eq_refl).
  split; reflexivity.
Defined.

(** *** Update and download *)

(** X15: with the pool of the repository, PUT /file/update/:id is answered
    404 whatever the id and the rows of the table: the storage stage has
    written the attachment, but no row changes, no path is resolved and the
    blob of the row is not unlinked; the users and the registry are as
    before. *)
Theorem file_update_always_404 (P : platform) (fileId : string) (f : upload) (s : server) :
  pool P = Callback →
  fst (serve (file_update P fileId (Some f)) s) = not_found ∧
  files (snd (serve (file_update P fileId (Some f)) s)) = files s ∧
  fs_log (snd (serve (file_update P fileId (Some f)) s))
  = (fs_log s ++ [WriteFile (dirname P +:+ "/uploads/" +:+ filename f)])%list ∧
  users (snd (serve (file_update P fileId (Some f)) s)) = users s ∧
  refreshTokens (snd (serve (file_update P fileId (Some f)) s)) = refreshTokens s.
Proof. intros Hpool. by rewrite file_update_callback. Qed.

Lemma file_update_always_404_witness :
  matching_files Demo.libs "1" Demo.with_two_rows = [Demo.stored_row] ∧
  fst (serve (file_update Demo.libs "1" (Some Demo.report_v2)) Demo.with_two_rows)
  = not_found ∧
  files (snd (serve (file_update Demo.libs "1" (Some Demo.report_v2)) Demo.with_two_rows))
  = [Demo.stored_row; Demo.unstored_row] ∧
  fs_log (snd (serve (file_update Demo.libs "1" (Some Demo.report_v2)) Demo.with_two_rows))
  = [WriteFile "/app/uploads/1700000000000-42.pdf"].
Proof.
  destruct (file_update_always_404 Demo.libs "1" Demo.report_v2 Demo.with_two_rows eq_refl)
    as (H404 & Hfiles & Hlog & _).
  split; [vm_compute; reflexivity |].
  split; [exact H404 |]. split; [exact Hfiles | exact Hlog].
Defined.

Lemma file_update_others (P : platform) (fileId : string) (req_file : option upload)
    (s : server) :
  users (snd (serve (file_update P fileId req_file) s)) = users s ∧
  refreshTokens (snd (serve (file_update P fileId req_file) s)) = refreshTokens s.
Proof.
  destruct (pool P) eqn:Hpool.
  { rewrite file_update_callback by done. by destruct req_file. }
  unfold file_update, file_update_handler, select_file, multer_store.
  destruct req_file as [f |]; run;
    rewrite Hpool, ?log_fs_db_down, ?log_fs_matching;
    (destruct (db_down s) eqn:Hup; [done |]);
    (destruct (matching_files P fileId s) as [| file rest]; [done |]);
    cbn [first_row];
    (destruct (prop file "filename") as [| | | | name] eqn:Hname; try done);
    edestruct (uploads_path_string P name) as [p ->]; cbn; by rewrite ?Hpool, ?Hup.
Qed.

(** X16: whatever the update request and its outcome, the table keeps its
    rows in place and every column of every row other than [filename] keeps
    its value; the users and the registry are not touched. *)
Theorem file_update_keeps_columns (P : platform) (fileId : string)
    (req_file : option upload) (s : server) :
  length (files (snd (serve (file_update P fileId req_file) s))) = length (files s) ∧
  users (snd (serve (file_update P fileId req_file) s)) = users s ∧
  refreshTokens (snd (serve (file_update P fileId req_file) s)) = refreshTokens s ∧
  ∀ i row, files s !! i = Some row →
    ∃ row', files (snd (serve (file_update P fileId req_file) s)) !! i = Some row' ∧
            ∀ column, column ≠ "filename" → row' !! column = row !! column.
Proof.
  split; [| split; [| split]].
  - destruct (file_update_files P fileId req_file s) as [-> | (f & _ & ->)]; [done |].
    unfold update_filename, set_files. cbn [files]. apply length_fmap.
  - apply file_update_others.
  - apply file_update_others.
  - intros i row Hi. by apply file_update_frame.
Qed.

Lemma file_update_keeps_columns_witness :
  ∃ row', files (snd (serve (file_update Demo.libs "1" (Some Demo.report_v2))
                            Demo.with_two_rows)) !! 0%nat = Some row' ∧
          row' !! "name" = Some (VStr "report") ∧
          row' !! "mime_type" = Some (VStr "application/pdf").
Proof.
  destruct (proj2 (proj2 (proj2 (file_update_keeps_columns Demo.libs "1"
              (Some Demo.report_v2) Demo.with_two_rows))) 0%nat Demo.stored_row eq_refl)
    as (row' & Hrow' & Hcols).
  exists row'. split; [exact Hrow' |].
  split; [exact (Hcols "name" ltac:(discriminate))
         | exact (Hcols "mime_type" ltac:(discriminate))].
Defined.

(** X18: an update of an id that selects no row is answered 404 and changes
    no table; but the storage stage has run before the handler, so the
    attachment's blob is on disk, referred to by no row. *)
Theorem file_update_missing (P : platform) (fileId : string) (f : upload) (s : server) :
  db_down s = false →
  matching_files P fileId s = [] →
  serve (file_update P fileId (Some f)) s
  = (not_found, log_fs (WriteFile (dirname P +:+ "/uploads/" +:+ filename f)) s).
Proof.
  intros Hup Hnone.
  destruct (pool P) eqn:Hpool; [by rewrite file_update_callback |].
  unfold file_update, file_update_handler, select_file, multer_store. run.
  by rewrite Hpool, log_fs_db_down, log_fs_matching, Hup, Hnone.
Qed.

Lemma file_update_missing_witness :
  fs_log (snd (serve (file_update Demo.libs "7" (Some Demo.report_v2)) Demo.with_two_rows))
  = [WriteFile "/app/uploads/1700000000000-42.pdf"].
Proof.
  by rewrite (file_update_missing Demo.libs "7" Demo.report_v2 Demo.with_two_rows
                eq_refl eq_refl).
Defined.

Lemma matching_files_elem (P : platform) (fileId : string) (s : server)
    (file : obj) (rest : list obj) :
  matching_files P fileId s = file :: rest → file ∈ files s.
Proof.
  intros H. assert (Hin : file ∈ matching_files P fileId s) by (rewrite H; left).
  unfold matching_files in Hin. by apply elem_of_List_filter in Hin as [? _].
Qed.

(** X19: over a table none of whose rows has a property [mimeType] (the
    column is [mime_type]), no download succeeds and no file is ever
    streamed: every download is answered 404 or 500, the tables and the
    registry are unchanged, and the only filesystem operation it can add is
    one path resolution. *)
Theorem file_download_never_streams (P : platform) (fileId : string) (s : server) :
  forallb (λ f : obj, bool_decide (f !! "mimeType" = None)) (files s) = true →
  (statusCode (fst (serve (file_download P fileId) s)) = 404 ∨
   statusCode (fst (serve (file_download P fileId) s)) = 500) ∧
  files (snd (serve (file_download P fileId) s)) = files s ∧
  users (snd (serve (file_download P fileId) s)) = users s ∧
  refreshTokens (snd (serve (file_download P fileId) s)) = refreshTokens s ∧
  (fs_log (snd (serve (file_download P fileId) s)) = fs_log s ∨
   ∃ p, fs_log (snd (serve (file_download P fileId) s)) = (fs_log s ++ [PathJoin p])%list).
Proof.
  intros Hcols.
  destruct (pool P) eqn:Hpool; [rewrite file_download_callback by done; by auto 10 |].
  unfold file_download, select_file. run. rewrite Hpool.
  destruct (db_down s) eqn:Hup; [by auto 10 |].
  destruct (matching_files P fileId s) as [| file rest] eqn:Hrow; [by auto 10 |].
  assert (Hmime : file !! "mimeType" = None).
  { apply matching_files_elem in Hrow. rewrite forallb_forall in Hcols.
    apply list_elem_of_In in Hrow. by apply Hcols, bool_decide_eq_true in Hrow. }
  cbn [first_row].
  destruct (prop file "filename") as [| | | | name] eqn:Hname; try by auto 10.
  edestruct (uploads_path_string P name) as [p ->].
  rewrite (prop_lookup_None _ _ Hmime). cbn. eauto 10.
Qed.

Lemma file_download_never_streams_witness :
  statusCode (fst (serve (file_download Demo.libs "1") Demo.with_two_rows)) = 404 ∨
  statusCode (fst (serve (file_download Demo.libs "1") Demo.with_two_rows)) = 500.
Proof.
  exact (proj1 (file_download_never_streams Demo.libs "1" Demo.with_two_rows eq_refl)).
Defined.

(** *** Query parameters *)

Lemma pretty_N_char_digit (x : N) : is_digit (pretty_N_char x) = true.
Proof. unfold pretty_N_char. by repeat case_match. Qed.

Lemma digit_value_pretty_N_char (x : N) :
  (x < 10)%N → digit_value (pretty_N_char x) = Some (Z.of_N x).
Proof.
  intros Hx.
  assert (x = 0 ∨ x = 1 ∨ x = 2 ∨ x = 3 ∨ x = 4 ∨ x = 5 ∨ x = 6 ∨ x = 7 ∨ x = 8 ∨ x = 9)%N
    as Hcases by lia.
  repeat destruct Hcases as [-> | Hcases]; subst; reflexivity.
Qed.

(** The decimal rendering is made of digits. *)
Lemma pretty_N_go_digits (x : N) (s : string) :
  all_chars is_digit s = true → all_chars is_digit (pretty_N_go x s) = true.
Proof.
  revert s. induction (N.lt_wf_0 x) as [x _ IH]. intros s Hs.
  destruct (decide (0 < x)%N) as [Hpos | Hzero].
  - rewrite pretty_N_go_step by done. apply IH; [by apply N.div_lt |].
    cbn [all_chars]. by rewrite pretty_N_char_digit.
  - assert (x = 0%N) as -> by lia. by rewrite pretty_N_go_0.
Qed.

(** Reading the digits of [x], then [s], is reading [s] from [x]. *)
Lemma parse_digits_pretty_N_go (x : N) (s : string) :
  (0 < x)%N →
  parse_digits 10 (pretty_N_go x s) None = parse_digits 10 s (Some (Z.of_N x)).
Proof.
  revert s. induction (N.lt_wf_0 x) as [x _ IH]. intros s Hpos.
  rewrite pretty_N_go_step by done.
  assert (Hd : (x `mod` 10 < 10)%N) by (apply N.mod_lt; lia).
  assert (Hx : Z.of_N x = 10 * Z.of_N (x `div` 10) + Z.of_N (x `mod` 10)).
  { rewrite (N.div_mod x 10) at 1 by lia. lia. }
  destruct (decide (0 < x `div` 10)%N) as [Hq | Hq].
  - rewrite IH; [| by apply N.div_lt | done].
    cbn [parse_digits]. rewrite digit_value_pretty_N_char by done.
    destruct (Z.ltb_spec (Z.of_N (x `mod` 10)) 10); [| lia].
    cbn [default]. by rewrite Hx.
  - assert (x `div` 10 = 0)%N as Hq0 by lia. rewrite Hq0, pretty_N_go_0.
    cbn [parse_digits]. rewrite digit_value_pretty_N_char by done.
    destruct (Z.ltb_spec (Z.of_N (x `mod` 10)) 10); [| lia].
    cbn [default]. by rewrite Hx, Hq0.
Qed.







Lemma pretty_N_go_nonempty (x : N) (s : string) : s ≠ "" → pretty_N_go x s ≠ "".
Proof.
  revert s. induction (N.lt_wf_0 x) as [x _ IH]. intros s Hs.
  destruct (decide (0 < x)%N) as [Hpos | Hzero].
  - rewrite pretty_N_go_step by done. apply IH; [by apply N.div_lt | done].
  - assert (x = 0%N) as -> by lia. by rewrite pretty_N_go_0.
Qed.

Lemma pretty_positive_parse (p : positive) :
  all_chars is_digit (pretty p) = true ∧ pretty p ≠ "" ∧
  parse_digits 10 (pretty p) None = Some (Z.pos p).
Proof.
  unfold pretty, pretty_positive, pretty, pretty_N.
  destruct (decide (N.pos p = 0%N)) as [? | _]; [done |]. split; [| split].
  - by apply pretty_N_go_digits.
  - rewrite pretty_N_go_step by lia. by apply pretty_N_go_nonempty.
  - by rewrite parse_digits_pretty_N_go.
Qed.







(** *** List *)




(** *** Stored names *)

Lemma all_chars_impl (f g : ascii → bool) (s : string) :
  (∀ c, f c = true → g c = true) → all_chars f s = true → all_chars g s = true.
Proof.
  intros Hfg. induction s as [| c s IH]; [done |]. cbn [all_chars].
  intros [Hc Hs]%andb_true_iff. by rewrite (Hfg c Hc), IH.
Qed.

Lemma all_chars_app (f : ascii → bool) (a b : string) :
  all_chars f (a +:+ b) = all_chars f a && all_chars f b.
Proof.
  induction a as [| c a IH]; [done |]. rewrite string_app_cons. cbn [all_chars].
  by rewrite IH, andb_assoc.
Qed.

Lemma is_digit_plain (c : ascii) : is_digit c = true → plain c = true.
Proof. destruct c as [[] [] [] [] [] [] [] []]; done. Qed.

Lemma pretty_plain (n : Z) : all_chars plain (pretty n) = true ∧ pretty n ≠ "".
Proof.
  destruct n as [| p | p].
  - done.
  - destruct (pretty_positive_parse p) as (Hd & Hne & _). split; [| done].
    by apply (all_chars_impl is_digit), Hd; apply is_digit_plain.
  - destruct (pretty_positive_parse p) as (Hd & Hne & _). split; [| done].
    change (pretty (Z.neg p)) with (String "-" (pretty p)). cbn [all_chars].
    by rewrite (all_chars_impl is_digit plain _ is_digit_plain Hd).
Qed.

Lemma plain_no_slash (s : string) : all_chars plain s = true → has_slash s = false.
Proof.
  induction s as [| c s IH]; [done |]. cbn [all_chars has_slash].
  intros [Hc Hs]%andb_true_iff. unfold plain in Hc.
  apply andb_true_iff in Hc as [Hc _]. apply negb_true_iff in Hc. by rewrite Hc, IH.
Qed.

Lemma has_slash_app (a b : string) : has_slash (a +:+ b) = has_slash a || has_slash b.
Proof.
  induction a as [| c a IH]; [done |]. rewrite string_app_cons. cbn [has_slash].
  by destruct (Ascii.eqb c "/").
Qed.

Lemma last_segment_no_slash (s : string) : has_slash (last_segment s) = false.
Proof.
  induction s as [| c s IH]; [done |]. cbn [last_segment].
  by destruct (has_slash (String c s)) eqn:Hs.
Qed.

Lemma last_segment_id (s : string) : has_slash s = false → last_segment s = s.
Proof. destruct s as [| c s]; [done |]. cbn [last_segment]. by intros ->. Qed.

Lemma from_last_dot_plain (a b : string) :
  all_chars plain a = true → from_last_dot (a +:+ b) = from_last_dot b.
Proof.
  induction a as [| c a IH]; [done |]. rewrite string_app_cons. cbn [all_chars from_last_dot].
  intros [Hc Ha]%andb_true_iff. rewrite (IH Ha). unfold plain in Hc.
  apply andb_true_iff in Hc as [_ Hc]. apply negb_true_iff in Hc. rewrite Hc.
  by destruct (from_last_dot b).
Qed.

Lemma from_last_dot_fixed (s e : string) : from_last_dot s = Some e → from_last_dot e = Some e.
Proof.
  revert e. induction s as [| c s IH]; [done |]. cbn [from_last_dot]. intros e.
  destruct (from_last_dot s) as [e' |] eqn:Hs.
  - intros [= <-]. by apply IH.
  - destruct (Ascii.eqb c ".") eqn:Hc; [| done]. intros [= <-].
    cbn [from_last_dot]. by rewrite Hs, Hc.
Qed.

(** An extension is empty or starts at its only dot, and holds no slash. *)
Lemma extname_shape (p : string) :
  default "" (from_last_dot (extname p)) = extname p ∧ has_slash (extname p) = false.
Proof.
  unfold extname. pose proof (last_segment_no_slash p) as Hseg.
  destruct (last_segment p) as [| c rest]; [done |].
  destruct (String.eqb (String c rest) ".."); [done |].
  destruct (from_last_dot rest) as [e |] eqn:He; [| done].
  change (default "" (Some e)) with e. split.
  - by rewrite (from_last_dot_fixed _ _ He).
  - apply from_last_dot_suffix in He as [pre ->].
    cbn [has_slash] in Hseg. destruct (Ascii.eqb c "/"); [done |].
    rewrite has_slash_app in Hseg. by apply orb_false_iff in Hseg as [_ ?].
Qed.

(** X24: the name the disk storage gives a blob holds no slash, whatever the
    original name is, so the blob is written in the uploads directory
    itself; and its extension is the extension of the original name. *)
Theorem storage_filename_safe (now rnd : Z) (original : string) :
  has_slash (storage_filename now rnd original) = false ∧
  last_segment (storage_filename now rnd original) = storage_filename now rnd original ∧
  extname (storage_filename now rnd original) = extname original.
Proof.
  destruct (pretty_plain now) as [Hnow Hne], (pretty_plain rnd) as [Hrnd _].
  destruct (extname_shape original) as [Hext Hslash].
  unfold storage_filename. cbv zeta.
  set (u := pretty now +:+ "-" +:+ pretty rnd).
  assert (Hu : all_chars plain u = true).
  { unfold u. rewrite all_chars_app, Hnow. cbn [andb].
    change ("-" +:+ pretty rnd) with (String "-" (pretty rnd)). cbn [all_chars].
    by rewrite Hrnd. }
  assert (Hns : has_slash (u +:+ extname original) = false).
  { by rewrite has_slash_app, (plain_no_slash u Hu), Hslash. }
  split; [done |]. split; [by apply last_segment_id |].
  unfold extname at 1. rewrite (last_segment_id _ Hns).
  destruct u as [| c u'] eqn:Heq.
  { unfold u in Heq. by destruct (pretty now). }
  rewrite string_app_cons. cbn [all_chars] in Hu. apply andb_true_iff in Hu as [Hc Hu'].
  assert (String.eqb (String c (u' +:+ extname original)) ".." = false) as ->.
  { unfold plain in Hc. apply andb_true_iff in Hc as [_ Hc]. apply negb_true_iff in Hc.
    cbn [String.eqb]. by rewrite Hc. }
  by rewrite (from_last_dot_plain u' _ Hu').
Qed.
